(** * Labor-market participation dataset: cleaning and regional merge

    A shallow embedding of [clean_exogenous_data.py] and
    [merge_regional_data.py], and the properties of the two stages.

    Conventions of the embedding.
    - A pandas [float64] cell is a [spec_float] of the binary64 format
      (53 bits of precision, exponent bound 1024), with the IEEE 754
      operations of the standard library's [SpecFloat]; [NaN] is the missing
      value of such a column, as in pandas.  Integer-valued numeric columns
      are floats that hold integers.
    - A cell of an [object] (text) column is an [option string]; [None] is
      the missing value.  A cell that a dict lookup produces is an [option]
      as well.  A postal code is an [option Z].
    - A Python [str] is written as its UTF-8 bytes.  The ASCII digits and
      letters are single bytes that never occur inside a multi-byte
      sequence, so scanning bytes for them finds what scanning code points
      finds.  The class [\d] is modelled on the ASCII digits, and case
      folding on ASCII and the Latin-1 supplement.
    - A table is the list of its rows, in index order; every table read
      from a file carries the default index 0, 1, 2, ...  The rows are
      records with one field per column that the stages touch.
    - An exception that aborts a stage is the result [None].
    - Parsing and printing the delimited files, and the statistics printed
      in the data dictionaries, are the business of pandas: the stages are
      modelled on the tables in memory, and the two jobs on a store of files
      with the pandas functions as parameters.  Console output is left
      out. *)

From Stdlib Require Import ZArith QArith Qpower Qcanon Ascii String Floats.SpecFloat.
From stdpp Require Import base option list sorting gmap strings pretty.

Open Scope string_scope.
Open Scope Z_scope.

(** ** Binary64 arithmetic *)

Module B64.

Definition prec : Z := 53.
Definition emax : Z := 1024.

Abbreviation float := spec_float.

Definition nan : float := S754_nan.

(** The binary64 number nearest to [m * 2^e] (ties to even). *)
Definition of_scaled (m e : Z) : float := binary_normalize prec emax m e false.

(** Conversion of a Python [int] to [float]. *)
Definition of_Z (z : Z) : float := of_scaled z 0.

Definition add : float -> float -> float := SFadd prec emax.
Definition mul : float -> float -> float := SFmul prec emax.
Definition div : float -> float -> float := SFdiv prec emax.

(** [pd.isna] on a float cell. *)
Definition isna (x : float) : bool :=
  match x with S754_nan => true | _ => false end.


(** [Series.fillna(v)] on one cell. *)
Definition fillna (v x : float) : float := if isna x then v else x.



End B64.

Abbreviation float := spec_float.

(** ** Text: digits and digit runs *)

Definition is_digit (c : ascii) : bool :=
  let n := N_of_ascii c in ((48 <=? n) && (n <=? 57))%N.

Definition digit_value (c : ascii) : Z := Z.of_N (N_of_ascii c) - 48.

Definition starts_with_digit (s : string) : bool :=
  match s with
  | String c _ => is_digit c
  | EmptyString => false
  end.

Fixpoint no_digit (s : string) : bool :=
  match s with
  | EmptyString => true
  | String c s' => negb (is_digit c) && no_digit s'
  end.

Fixpoint all_digits (s : string) : bool :=
  match s with
  | EmptyString => true
  | String c s' => is_digit c && all_digits s'
  end.

(** [re.findall(r'\d+', s)]: the maximal runs of digits of [s], from left
    to right.  A digit either opens a run that ends right after it, or is
    put in front of the run that its successor opens. *)
Fixpoint findall_digits (s : string) : list string :=
  match s with
  | EmptyString => []
  | String c s' =>
      if is_digit c then
        if starts_with_digit s' then
          match findall_digits s' with
          | r :: rs => String c r :: rs
          | [] => [String c EmptyString]
          end
        else String c EmptyString :: findall_digits s'
      else findall_digits s'
  end.

(** [re.search(r'\d+', s)]: the leftmost maximal run of digits, if any. *)
Definition search_digits (s : string) : option string :=
  head (findall_digits s).

(** The integer that a run of decimal digits denotes. *)
Fixpoint digits_to_Z_from (acc : Z) (s : string) : Z :=
  match s with
  | EmptyString => acc
  | String c s' => digits_to_Z_from (10 * acc + digit_value c) s'
  end.

Definition digits_to_Z (s : string) : Z := digits_to_Z_from 0 s.

(** Python's [float(s)] on a run of digits: the nearest binary64 number. *)
Definition float_of_digits (s : string) : float := B64.of_Z (digits_to_Z s).

(** ** Numeric extraction *)

(** [clean_risk_tolerance]: the inner [extract_number]. *)
Definition extract_number (val : option string) : float :=
  match val with
  | None => B64.nan
  | Some val_str =>
      match search_digits val_str with
      | Some m => float_of_digits m
      | None => B64.nan
      end
  end.

Definition clean_risk_tolerance (series : list (option string)) : list float :=
  extract_number <$> series.

(** [parse_income_range]: the inner [extract_midpoint]. *)
Definition extract_midpoint (val : option string) : float :=
  match val with
  | None => B64.nan
  | Some val_str =>
      match findall_digits val_str with
      | n0 :: n1 :: _ =>
          B64.div (B64.add (float_of_digits n0) (float_of_digits n1)) (B64.of_Z 2)
      | [n0] => float_of_digits n0
      | [] => B64.nan
      end
  end.

Definition parse_income_range (series : list (option string)) : list float :=
  extract_midpoint <$> series.

(** ** Text: case-insensitive containment *)

(** Lower-casing as the regular-expression engine folds case, on UTF-8
    bytes: the ASCII capitals, and the capitals of the Latin-1 supplement
    (lead byte 0xC3, second byte 0x80 to 0x9E except the multiplication
    sign 0x97), which is where the umlauts live. *)
Definition lower_ascii (c : ascii) : ascii :=
  let n := N_of_ascii c in
  if ((65 <=? n) && (n <=? 90))%N then ascii_of_N (n + 32) else c.

Definition lower_latin1_tail (c : ascii) : ascii :=
  let n := N_of_ascii c in
  if ((128 <=? n) && (n <=? 158) && negb (n =? 151))%N then ascii_of_N (n + 32) else c.

Fixpoint lower_from (after_c3 : bool) (s : string) : string :=
  match s with
  | EmptyString => EmptyString
  | String c s' =>
      String (if after_c3 then lower_latin1_tail c else lower_ascii c)
             (lower_from (N_of_ascii c =? 195)%N s')
  end.

Definition lower (s : string) : string := lower_from false s.

Fixpoint starts_with (p s : string) : bool :=
  match p, s with
  | EmptyString, _ => true
  | String a p', String b s' => bool_decide (a = b) && starts_with p' s'
  | String _ _, EmptyString => false
  end.

(** [p in s] for Python strings. *)
Fixpoint contains (p s : string) : bool :=
  starts_with p s ||
  match s with
  | EmptyString => false
  | String _ s' => contains p s'
  end.

(** [Series.str.contains('p1|p2|...', case=False, na=False)] on one cell,
    for alternatives that are plain words. *)
Definition str_contains_nocase (alternatives : list string) (val : option string) : bool :=
  match val with
  | None => false
  | Some s => existsb (fun p => contains (lower p) (lower s)) alternatives
  end.

(** ** Categorical and ordinal encoders *)

(** [Series.map(mapping)] with a dict: a label that is not a key, and a
    missing label, give a missing value. *)
Definition map_cell {V} (mapping : gmap string V) (val : option string) : option V :=
  val ≫= (mapping !!.).

Definition series_map {V} (mapping : gmap string V) (series : list (option string)) : list (option V) :=
  map_cell mapping <$> series.

Definition work_hours_mapping : gmap string float :=
  list_to_map
    [ ("0 Stunden", B64.of_Z 0);
      ("1-10 Stunden", B64.of_scaled 11 (-1));
      ("11-20 Stunden", B64.of_scaled 31 (-1));
      ("21-30 Stunden", B64.of_scaled 51 (-1));
      ("31-40 Stunden", B64.of_scaled 71 (-1));
      ("41-50 Stunden", B64.of_scaled 91 (-1));
      ("Mehr als 50 Stunden", B64.of_Z 55);
      ("Nicht erwerbstätig", B64.of_Z 0) ].

Definition encode_respondent_work_hours := series_map work_hours_mapping.

Definition gender_mapping : gmap string string :=
  list_to_map [ ("Männlich", "Male"); ("Weiblich", "Female"); ("Divers", "Diverse") ].

Definition encode_gender := series_map gender_mapping.

Definition gender_code_mapping : gmap string Z :=
  list_to_map [ ("Männlich", 1); ("Weiblich", 2); ("Divers", 3) ].

Definition education_mapping : gmap string Z :=
  list_to_map
    [ ("Ohne allgemeinen Schulabschluss", 1);
      ("Haupt- oder Volksschulabschluss (Abschluss der Pflichtschule)", 2);
      ("Abschluss der Polytechnischen Oberschule der DDR", 3);
      ("Mittleren Schulabschluss (z.B. Realschulabschluss)", 3);
      ("Abitur oder Fachabitur (Höchster Schulabschluss/ Hochschulreife)", 4) ].

Definition encode_education := series_map education_mapping.

Definition health_mapping : gmap string Z :=
  list_to_map
    [ ("Schlecht", 1); ("Weniger gut", 2); ("Zufriedenstellend", 3);
      ("Gut", 4); ("Sehr gut", 5) ].

Definition encode_health_status := series_map health_mapping.

Definition change_mapping : gmap string Z :=
  list_to_map
    [ ("stark abgenommen", -2); ("leicht abgenommen", -1);
      ("sich nicht verändert", 0);
      ("leicht zugenommen", 1); ("stark zugenommen", 2) ].

Definition encode_change_variables := series_map change_mapping.

Definition lives_with_others_mapping : gmap string string :=
  list_to_map [ ("Ja", "Yes"); ("Nein", "No") ].

(** ** Derived fields *)

(** [calculate_bmi].  The square [height_m ** 2] of a float64 is the
    correctly rounded product of [height_m] with itself. *)
Definition calculate_bmi (height_cm weight_kg : float) : float :=
  let height_m := B64.div height_cm (B64.of_Z 100) in
  let bmi := B64.div weight_kg (B64.mul height_m height_m) in
  bmi.

Definition university_words : list string :=
  [ "Universität"; "Hochschule"; "Bachelor"; "Master"; "Diplom"; "Promotion" ].

(** [bool.astype(int)]. *)
Definition astype_int (b : bool) : Z := if b then 1 else 0.

Definition has_university_degree_of (q191 : option string) : Z :=
  astype_int (str_contains_nocase university_words q191).

(** ** Tables *)

(** A row of the raw response export, restricted to the question codes that
    the cleaning stage reads. *)
Module Raw.
Record row := {
  ResponseId : option string;
  Q179 : option string;
  Q4_4 : float;
  Q4_2 : float;
  Q4_3 : float;
  Q4_5 : float;
  Q80_1 : float;
  Q256 : option string;
  Q190 : option string;
  Q120 : option Z;
  Q191 : option string;
  Q82_1 : float;
  Q83_1 : float;
  Q84 : option string;
  Q219_3 : option string;
  Q219_4 : option string;
  Q243_1 : float;
  Q243_2 : float;
  Q243_3 : float;
  Q243_9 : float;
  Q211 : option string;
  Q86 : option string;
  Q87 : option string
}.
End Raw.

(** A row of the secondary export; only [Q1] is read. *)
Module Original.
Record row := { Q1 : option string }.
End Original.

(** A row of the cleaned table; the fields are the columns of [df_clean], in
    the order in which the stage creates them. *)
Module Clean.
Record row := {
  ResponseId : option string;
  lives_with_others : option string;
  respondent_work_hours : option float;
  respondent_work_hours_cat : option string;
  num_children : float;
  num_partners : float;
  num_parents : float;
  num_siblings : float;
  age : float;
  gender : option string;
  gender_code : option Z;
  education_level : option Z;
  education_cat : option string;
  zip_code : option Z;
  vocational_qualification : option string;
  has_university_degree : Z;
  height_cm : float;
  weight_kg : float;
  bmi : float;
  risk_tolerance : float;
  personal_income_change : option Z;
  partner_income_change : option Z;
  task_share_food : float;
  task_share_childcare : float;
  task_share_education : float;
  task_share_housework : float;
  health_status : option Z;
  health_status_cat : option string;
  household_income : float;
  personal_income : float;
  household_income_cat : option string;
  personal_income_cat : option string
}.

Definition columns : list string :=
  [ "ResponseId"; "lives_with_others"; "respondent_work_hours";
    "respondent_work_hours_cat"; "num_children"; "num_partners";
    "num_parents"; "num_siblings"; "age"; "gender"; "gender_code";
    "education_level"; "education_cat"; "zip_code";
    "vocational_qualification"; "has_university_degree"; "height_cm";
    "weight_kg"; "bmi"; "risk_tolerance"; "personal_income_change";
    "partner_income_change"; "task_share_food"; "task_share_childcare";
    "task_share_education"; "task_share_housework"; "health_status";
    "health_status_cat"; "household_income"; "personal_income";
    "household_income_cat"; "personal_income_cat" ].
End Clean.

(** ** The cleaning stage *)

(** [q1_data == 'Nein'] on one cell. *)
Definition lives_alone_of (q1 : option string) : bool :=
  bool_decide (q1 = Some "Nein").

(** [df_clean.loc[lives_alone, c] = df_clean.loc[lives_alone, c].fillna(0)]
    on one cell of column [c]. *)
Definition fix_living_alone (lives_alone : bool) (x : float) : float :=
  if lives_alone then B64.fillna (B64.of_Z 0) x else x.

(** The cleaned row at one index, from the raw row and the [Q1] cell at the
    same index. *)
Definition clean_row (r : Raw.row) (q1 : option string) : Clean.row :=
  let lives_alone := lives_alone_of q1 in
  {| Clean.ResponseId := Raw.ResponseId r;
     Clean.lives_with_others := map_cell lives_with_others_mapping q1;
     Clean.respondent_work_hours := map_cell work_hours_mapping (Raw.Q179 r);
     Clean.respondent_work_hours_cat := Raw.Q179 r;
     Clean.num_children := fix_living_alone lives_alone (Raw.Q4_4 r);
     Clean.num_partners := fix_living_alone lives_alone (Raw.Q4_2 r);
     Clean.num_parents := fix_living_alone lives_alone (Raw.Q4_3 r);
     Clean.num_siblings := fix_living_alone lives_alone (Raw.Q4_5 r);
     Clean.age := Raw.Q80_1 r;
     Clean.gender := map_cell gender_mapping (Raw.Q256 r);
     Clean.gender_code := map_cell gender_code_mapping (Raw.Q256 r);
     Clean.education_level := map_cell education_mapping (Raw.Q190 r);
     Clean.education_cat := Raw.Q190 r;
     Clean.zip_code := Raw.Q120 r;
     Clean.vocational_qualification := Raw.Q191 r;
     Clean.has_university_degree := has_university_degree_of (Raw.Q191 r);
     Clean.height_cm := Raw.Q82_1 r;
     Clean.weight_kg := Raw.Q83_1 r;
     Clean.bmi := calculate_bmi (Raw.Q82_1 r) (Raw.Q83_1 r);
     Clean.risk_tolerance := extract_number (Raw.Q84 r);
     Clean.personal_income_change := map_cell change_mapping (Raw.Q219_3 r);
     Clean.partner_income_change := map_cell change_mapping (Raw.Q219_4 r);
     Clean.task_share_food := Raw.Q243_1 r;
     Clean.task_share_childcare := Raw.Q243_2 r;
     Clean.task_share_education := Raw.Q243_3 r;
     Clean.task_share_housework := Raw.Q243_9 r;
     Clean.health_status := map_cell health_mapping (Raw.Q211 r);
     Clean.health_status_cat := Raw.Q211 r;
     Clean.household_income := extract_midpoint (Raw.Q86 r);
     Clean.personal_income := extract_midpoint (Raw.Q87 r);
     Clean.household_income_cat := Raw.Q86 r;
     Clean.personal_income_cat := Raw.Q87 r |}.

(** [df_original.iloc[2:].reset_index(drop=True)['Q1']]. *)
Definition q1_data_of (df_original : list Original.row) : list (option string) :=
  Original.Q1 <$> drop 2 df_original.

(** [clean_exogenous_dataset], on the two tables read.  The cleaned table
    takes its index from [df]; the [Q1] cells are aligned to it by index.  A
    boolean mask that has no entry for some index of [df_clean] cannot be
    used with [.loc]: pandas raises [IndexingError], here [None]. *)
Definition clean_exogenous_dataset
    (df : list Raw.row) (df_original : list Original.row) : option (list Clean.row) :=
  let q1_data := q1_data_of df_original in
  if decide (length df <= length q1_data)%nat
  then Some (zip_with clean_row df q1_data)
  else None.

(** ** The region table *)

(** A row of the region file, restricted to the eight columns that the merge
    selects.  The two names are text, the other attributes numeric. *)
Module Region.
Record row := {
  PLZ : option Z;
  Bundesland : option string;
  Kreis : option string;
  Stadt_Dummy : float;
  EW_km2 : float;
  Rural_Dummy : float;
  EW : float;
  Metropol_Dummy : float
}.
End Region.

(** The region table as merged: selected and renamed columns. *)
Module RegionMerge.
Record row := {
  region_plz : option Z;
  federal_state : option string;
  district : option string;
  is_city : float;
  population_density : float;
  is_rural : float;
  population : float;
  is_metropolitan : float
}.
End RegionMerge.

(** A row of the join, before [region_plz] is dropped. *)
Module Joined.
Record row := {
  left : Clean.row;
  right : RegionMerge.row
}.
End Joined.

(** A row of the merged table: the cleaned columns, then the seven regional
    ones. *)
Module Merged.
Record row := {
  base : Clean.row;
  federal_state : option string;
  district : option string;
  is_city : float;
  population_density : float;
  is_rural : float;
  population : float;
  is_metropolitan : float
}.
End Merged.

Definition regional_cols : list string :=
  [ "PLZ"; "Bundesland"; "Kreis"; "Stadt.Dummy"; "EW.km2"; "Rural.Dummy"; "EW";
    "Metropol.Dummy" ].

Definition rename_mapping : gmap string string :=
  list_to_map
    [ ("PLZ", "region_plz"); ("Bundesland", "federal_state");
      ("Kreis", "district"); ("Stadt.Dummy", "is_city");
      ("EW.km2", "population_density"); ("Rural.Dummy", "is_rural");
      ("EW", "population"); ("Metropol.Dummy", "is_metropolitan") ].

(** [DataFrame.rename(columns=mapping)] on the column names. *)
Definition rename_columns (mapping : gmap string string) (cols : list string) : list string :=
  (fun c => default c (mapping !! c)) <$> cols.

(** [DataFrame.drop(c, axis=1)] on the column names. *)
Definition drop_column (c : string) (cols : list string) : list string :=
  filter (fun c' => c' ≠ c) cols.

(** The columns of [df_merged]: those of the left table, then those of the
    right one, then [region_plz] dropped. *)
Definition merged_columns : list string :=
  drop_column "region_plz" (Clean.columns ++ rename_columns rename_mapping regional_cols).

(** The first cell of a group that is not missing; missing if there is
    none.  This is what [GroupBy.first()] computes, column by column. *)
Fixpoint first_valid {A} (cells : list (option A)) : option A :=
  match cells with
  | [] => None
  | Some x :: _ => Some x
  | None :: cells' => first_valid cells'
  end.

Fixpoint first_valid_float (cells : list float) : float :=
  match cells with
  | [] => B64.nan
  | x :: cells' => if B64.isna x then first_valid_float cells' else x
  end.

(** The group keys of [groupby('PLZ')]: the distinct postal codes that are
    not missing, in ascending order. *)
Definition group_keys (df_regions : list Region.row) : list Z :=
  merge_sort Z.le (remove_dups (omap Region.PLZ df_regions)).

Definition group_of (k : Z) (df_regions : list Region.row) : list Region.row :=
  filter (fun r => Region.PLZ r = Some k) df_regions.

Definition first_of_group (k : Z) (g : list Region.row) : Region.row :=
  {| Region.PLZ := Some k;
     Region.Bundesland := first_valid (Region.Bundesland <$> g);
     Region.Kreis := first_valid (Region.Kreis <$> g);
     Region.Stadt_Dummy := first_valid_float (Region.Stadt_Dummy <$> g);
     Region.EW_km2 := first_valid_float (Region.EW_km2 <$> g);
     Region.Rural_Dummy := first_valid_float (Region.Rural_Dummy <$> g);
     Region.EW := first_valid_float (Region.EW <$> g);
     Region.Metropol_Dummy := first_valid_float (Region.Metropol_Dummy <$> g) |}.

(** [df_regions.groupby('PLZ').first().reset_index()]. *)
Definition groupby_PLZ_first (df_regions : list Region.row) : list Region.row :=
  (fun k => first_of_group k (group_of k df_regions)) <$> group_keys df_regions.

(** [df_regions_agg[regional_cols].rename(columns=...)] on one row. *)
Definition rename_row (r : Region.row) : RegionMerge.row :=
  {| RegionMerge.region_plz := Region.PLZ r;
     RegionMerge.federal_state := Region.Bundesland r;
     RegionMerge.district := Region.Kreis r;
     RegionMerge.is_city := Region.Stadt_Dummy r;
     RegionMerge.population_density := Region.EW_km2 r;
     RegionMerge.is_rural := Region.Rural_Dummy r;
     RegionMerge.population := Region.EW r;
     RegionMerge.is_metropolitan := Region.Metropol_Dummy r |}.

(** The right-hand side of a left row that found no partner. *)
Definition all_missing : RegionMerge.row :=
  {| RegionMerge.region_plz := None;
     RegionMerge.federal_state := None;
     RegionMerge.district := None;
     RegionMerge.is_city := B64.nan;
     RegionMerge.population_density := B64.nan;
     RegionMerge.is_rural := B64.nan;
     RegionMerge.population := B64.nan;
     RegionMerge.is_metropolitan := B64.nan |}.

(** The partners of a left row: the right rows with the same key, in their
    order.  pandas matches a missing key with a missing key. *)
Definition partners (l : Clean.row) (right : list RegionMerge.row) : list RegionMerge.row :=
  filter (fun r => RegionMerge.region_plz r = Clean.zip_code l) right.

(** [left.merge(right, left_on='zip_code', right_on='region_plz',
    how='left')]: the left rows in their order, each once per partner, or
    once with a missing right-hand side. *)
Definition merge_left (left : list Clean.row) (right : list RegionMerge.row) : list Joined.row :=
  l ← left;
  match partners l right with
  | [] => [ {| Joined.left := l; Joined.right := all_missing |} ]
  | ps => (fun r => {| Joined.left := l; Joined.right := r |}) <$> ps
  end.

(** [df_merged.drop('region_plz', axis=1)] on one row. *)
Definition drop_region_plz (j : Joined.row) : Merged.row :=
  let r := Joined.right j in
  {| Merged.base := Joined.left j;
     Merged.federal_state := RegionMerge.federal_state r;
     Merged.district := RegionMerge.district r;
     Merged.is_city := RegionMerge.is_city r;
     Merged.population_density := RegionMerge.population_density r;
     Merged.is_rural := RegionMerge.is_rural r;
     Merged.population := RegionMerge.population r;
     Merged.is_metropolitan := RegionMerge.is_metropolitan r |}.

(** A column survives [dropna(axis=1, how='all')] when some cell of it is
    not missing.  The merge selects eight columns by name afterwards, so
    each of them must have survived; otherwise the selection raises
    [KeyError]. *)
Definition regional_cols_survive (df_regions : list Region.row) : bool :=
  existsb (fun r => bool_decide (is_Some (Region.PLZ r))) df_regions
  && existsb (fun r => bool_decide (is_Some (Region.Bundesland r))) df_regions
  && existsb (fun r => bool_decide (is_Some (Region.Kreis r))) df_regions
  && existsb (fun r => negb (B64.isna (Region.Stadt_Dummy r))) df_regions
  && existsb (fun r => negb (B64.isna (Region.EW_km2 r))) df_regions
  && existsb (fun r => negb (B64.isna (Region.Rural_Dummy r))) df_regions
  && existsb (fun r => negb (B64.isna (Region.EW r))) df_regions
  && existsb (fun r => negb (B64.isna (Region.Metropol_Dummy r))) df_regions.

(** [merge_regional_data], on the two tables read; [None] is the
    [KeyError] of a selected column that is not there. *)
Definition merge_regional_data
    (df_clean : list Clean.row) (df_regions : list Region.row) : option (list Merged.row) :=
  if regional_cols_survive df_regions then
    let df_regions_agg := groupby_PLZ_first df_regions in
    let df_regions_merge := rename_row <$> df_regions_agg in
    let df_merged := merge_left df_clean df_regions_merge in
    Some (drop_region_plz <$> df_merged)
  else None.

(** ** Reading the region file: the encoding fallback *)

Inductive encoding := utf_8 | latin_1 | cp1252.

(** What an attempt to read can raise: the decoding error that the stage
    catches, or anything else (file not found, a malformed row). *)
Inductive exn := UnicodeDecodeError | OtherError (what : string).

Section Loading.
Context {T : Type}.

(** [pd.read_csv(regions_file, encoding=e)] on the file at hand. *)
Variable read_csv : encoding -> exn + T.

(** A computation that may raise and that logs the encodings it tries. *)
Definition loading (A : Type) : Type := list encoding -> list encoding * (exn + A).

Definition try_read (e : encoding) : loading T :=
  fun log => ((log ++ [e])%list, read_csv e).

(** [try: body except UnicodeDecodeError: handler]. *)
Definition except_UnicodeDecodeError {A} (body handler : loading A) : loading A :=
  fun log =>
    match body log with
    | (log', inl UnicodeDecodeError) => handler log'
    | r => r
    end.

Definition load_regions : loading T :=
  except_UnicodeDecodeError (try_read utf_8)
    (except_UnicodeDecodeError (try_read latin_1) (try_read cp1252)).

End Loading.

Definition encoding_order : list encoding := [utf_8; latin_1; cp1252].

(** ** The data dictionary *)

(** What the dictionary asks of pandas about a table [F]: the column
    names in order, the number of rows, and per column the storage type, the
    counts and the printed statistics. *)
Record frame_ops (F : Type) := {
  df_columns : F -> list string;
  df_len : F -> nat;
  col_dtype : F -> string -> string;
  col_isnull_sum : F -> string -> nat;
  col_notna_sum : F -> string -> nat;
  col_mean_2f : F -> string -> string;
  col_std_2f : F -> string -> string;
  col_min : F -> string -> string;
  col_max : F -> string -> string;
  col_nunique : F -> string -> nat;
  col_value_counts : F -> string -> list (string * nat);
  (** [f"{a/b*100:.1f}"] *)
  percent_1f : nat -> nat -> string
}.

Arguments df_columns {F}.
Arguments df_len {F}.
Arguments col_dtype {F}.
Arguments col_isnull_sum {F}.
Arguments col_notna_sum {F}.
Arguments col_mean_2f {F}.
Arguments col_std_2f {F}.
Arguments col_min {F}.
Arguments col_max {F}.
Arguments col_nunique {F}.
Arguments col_value_counts {F}.
Arguments percent_1f {F}.

Definition newline : string := String (ascii_of_nat 10) EmptyString.

Fixpoint repeat_string (s : string) (n : nat) : string :=
  match n with
  | O => EmptyString
  | S n' => s +:+ repeat_string s n'
  end.

(** ['\n'.join(lines)]. *)
Fixpoint join_lines (lines : list string) : string :=
  match lines with
  | [] => EmptyString
  | [l] => l
  | l :: ls => l +:+ newline +:+ join_lines ls
  end.

Definition str_nat (n : nat) : string := pretty n.

Definition clean_descriptions : gmap string string :=
  list_to_map
    [ ("ResponseId", "Unique survey response identifier");
      ("lives_with_others", "Lives with others in household (Yes/No)");
      ("respondent_work_hours", "Respondent's weekly work hours (numeric midpoint)");
      ("respondent_work_hours_cat", "Respondent's weekly work hours (categorical)");
      ("num_children", "Number of children in household (0 if living alone)");
      ("num_partners", "Number of partners in household (0 if living alone)");
      ("num_parents", "Number of parents in household (0 if living alone)");
      ("num_siblings", "Number of siblings in household (0 if living alone)");
      ("age", "Respondent's age in years");
      ("gender", "Gender (Male/Female/Diverse)");
      ("gender_code", "Gender code (1=Male, 2=Female, 3=Diverse)");
      ("education_level", "Education level (1=None to 4=Abitur)");
      ("education_cat", "Education level (categorical, German)");
      ("zip_code", "Zip code of residence");
      ("vocational_qualification", "Vocational qualification (text)");
      ("has_university_degree", "Has university degree (1=Yes, 0=No)");
      ("height_cm", "Height in centimeters");
      ("weight_kg", "Weight in kilograms");
      ("bmi", "Body Mass Index (calculated)");
      ("risk_tolerance", "Risk tolerance (0=not willing to 10=very willing)");
      ("personal_income_change", "Personal income change (-2=strongly decreased to +2=strongly increased)");
      ("partner_income_change", "Partner income change (-2=strongly decreased to +2=strongly increased)");
      ("task_share_food", "Personal share of food shopping/preparation (%)");
      ("task_share_childcare", "Personal share of childcare (%)");
      ("task_share_education", "Personal share of children's education (%)");
      ("task_share_housework", "Personal share of housework (%)");
      ("health_status", "Health status (1=Poor to 5=Very good)");
      ("health_status_cat", "Health status (categorical, German)");
      ("household_income", "Monthly household net income (euros, midpoint)");
      ("personal_income", "Monthly personal net income (euros, midpoint)");
      ("household_income_cat", "Monthly household net income (categorical)");
      ("personal_income_cat", "Monthly personal net income (categorical)") ].

Definition regional_descriptions : list (string * string) :=
  [ ("federal_state", "Federal state (Bundesland) based on postal code");
    ("district", "District/county (Kreis) based on postal code");
    ("is_city", "City indicator (1=City, 0=Not city)");
    ("population_density", "Population density (inhabitants per km²)");
    ("is_rural", "Rural area indicator (1=Rural, 0=Not rural)");
    ("population", "Total population in the region");
    ("is_metropolitan", "Metropolitan area indicator (1=Metropolitan, 0=Not metropolitan)") ].

Definition merged_descriptions : gmap string string :=
  list_to_map regional_descriptions ∪ clean_descriptions.

Section Dictionary.
Context {F : Type} (ops : frame_ops F).

Definition entry_head (var_descriptions : gmap string string) (df : F) (col : string) : list string :=
  [ newline +:+ col;
    repeat_string "-" 40;
    "Description: " +:+ default "No description" (var_descriptions !! col);
    "Type: " +:+ col_dtype ops df col;
    "Missing: " +:+ str_nat (col_isnull_sum ops df col) +:+ " ("
      +:+ percent_1f ops (col_isnull_sum ops df col) (df_len ops df) +:+ "%)";
    "Non-missing: " +:+ str_nat (col_notna_sum ops df col) ].

Definition entry_numeric (df : F) (col : string) : list string :=
  [ "Mean: " +:+ col_mean_2f ops df col;
    "Std: " +:+ col_std_2f ops df col;
    "Min: " +:+ col_min ops df col;
    "Max: " +:+ col_max ops df col ].

Definition entry_object (df : F) (col : string) : list string :=
  ("Unique values: " +:+ str_nat (col_nunique ops df col)) ::
  if decide (col_nunique ops df col <= 10)%nat then
    "Value counts:" ::
    ((fun vc => "  " +:+ vc.1 +:+ ": " +:+ str_nat vc.2) <$> col_value_counts ops df col)
  else [].

Definition is_numeric_dtype (dtype : string) : bool :=
  bool_decide (dtype ∈ ["int64"; "float64"]).

(** One pass of the loop of [generate_data_dictionary]. *)
Definition clean_entry (df : F) (col : string) : list string :=
  (entry_head clean_descriptions df col ++
   (if is_numeric_dtype (col_dtype ops df col) then entry_numeric df col
    else if bool_decide (col_dtype ops df col = "object") then entry_object df col
    else []) ++
   [EmptyString])%list.

(** One pass of the loop of [update_data_dictionary]: the statistics are
    printed only for a column that has a value. *)
Definition merged_entry (df : F) (col : string) : list string :=
  (entry_head merged_descriptions df col ++
   (if is_numeric_dtype (col_dtype ops df col) then
      if decide (0 < col_notna_sum ops df col)%nat then entry_numeric df col else []
    else if bool_decide (col_dtype ops df col = "object") then entry_object df col
    else []) ++
   [EmptyString])%list.

Definition banner (title : string) : list string :=
  [ repeat_string "=" 80; title; repeat_string "=" 80; EmptyString ].

(** The text that [generate_data_dictionary] writes. *)
Definition generate_data_dictionary (df : F) : string :=
  join_lines
    (banner "DATA DICTIONARY - Cleaned Exogenous Variables Dataset" ++
     (df_columns ops df ≫= clean_entry df))%list.

(** The text that [update_data_dictionary] writes. *)
Definition update_data_dictionary (df : F) : string :=
  join_lines
    (banner "DATA DICTIONARY - Cleaned Exogenous Variables with Regional Data" ++
     (df_columns ops df ≫= merged_entry df))%list.

End Dictionary.

(** ** The two jobs, on the files *)

(** The files at hand: path to contents. *)
Abbreviation files := (gmap string string).

(** [s.replace(old, new)] for a non-empty [old]; [skip] counts the
    characters of a match just replaced that are still to be passed. *)
Fixpoint replace_from (old new : string) (skip : nat) (s : string) : string :=
  match s with
  | EmptyString => EmptyString
  | String c s' =>
      match skip with
      | S k => replace_from old new k s'
      | O =>
          if starts_with old s
          then new +:+ replace_from old new (String.length old - 1) s'
          else String c (replace_from old new 0 s')
      end
  end.

Definition str_replace (old new s : string) : string := replace_from old new 0 s.

Definition dictionary_path (output_file : string) : string :=
  str_replace ".csv" "_dictionary.txt" output_file.

(** What pandas does at the boundary of the jobs: parsing a delimited file
    into a table (if it parses) and writing a table out. *)
Record csv_io := {
  read_raw : string -> option (list Raw.row);
  read_original : string -> option (list Original.row);
  read_clean : string -> option (list Clean.row);
  read_regions : string -> encoding -> exn + list Region.row;
  to_csv_clean : list Clean.row -> string;
  to_csv_merged : list Merged.row -> string;
  clean_ops : frame_ops (list Clean.row);
  merged_ops : frame_ops (list Merged.row)
}.

Definition raised_to_none {A} (r : exn + A) : option A :=
  match r with inr a => Some a | inl _ => None end.

Section Jobs.
Variable io : csv_io.

(** [clean_exogenous_dataset(input_file, output_file, original_data_file)]
    as a change of the files; [None] when the run aborts. *)
Definition clean_job (input_file output_file original_data_file : string)
    (fs : files) : option files :=
  df ← fs !! input_file ≫= read_raw io;
  df_original ← fs !! original_data_file ≫= read_original io;
  df_clean ← clean_exogenous_dataset df df_original;
  let fs := <[output_file := to_csv_clean io df_clean]> fs in
  Some (<[dictionary_path output_file :=
            generate_data_dictionary (clean_ops io) df_clean]> fs).

(** [merge_regional_data(cleaned_file, regions_file, output_file)] followed
    by [update_data_dictionary(df_merged, dictionary_file)]. *)
Definition merge_job (cleaned_file regions_file output_file dictionary_file : string)
    (fs : files) : option files :=
  df_clean ← fs !! cleaned_file ≫= read_clean io;
  regions ← fs !! regions_file;
  df_regions ← raised_to_none (load_regions (read_regions io regions) []).2;
  df_merged ← merge_regional_data df_clean df_regions;
  let fs := <[output_file := to_csv_merged io df_merged]> fs in
  Some (<[dictionary_file := update_data_dictionary (merged_ops io) df_merged]> fs).

(** The cleaning script run as a program. *)
Definition clean_main : files -> option files :=
  clean_job "exogenous_variables_dataset.csv" "exogenous_variables_cleaned.csv"
            "Data_Wave2 (1).csv".

(** The merging script run as a program. *)
Definition merge_main : files -> option files :=
  merge_job "exogenous_variables_cleaned.csv" "Regions.csv"
            "exogenous_variables_cleaned_with_regions.csv"
            "exogenous_variables_cleaned_with_regions_dictionary.txt".

End Jobs.

(** The files that a job writes, as found after a run. *)
Definition written (paths : list string) (result : option files) : option (list (option string)) :=
  (fun fs => (fs !!.) <$> paths) <$> result.

(** ** Specification-level notions *)

(** [digit_runs s runs]: [runs] are the maximal runs of digits of [s], from
    left to right.  Each run is preceded by text without digits and is
    followed by the end of the text or by a character that is no digit. *)
Inductive digit_runs : string -> list string -> Prop :=
  | digit_runs_none sep :
      no_digit sep = true ->
      digit_runs sep []
  | digit_runs_cons sep r rest runs :
      no_digit sep = true ->
      all_digits r = true ->
      starts_with_digit r = true ->
      starts_with_digit rest = false ->
      digit_runs rest runs ->
      digit_runs (sep +:+ r +:+ rest) (r :: runs).


(** ** Sample tables *)

Definition sample_raw_row (id : string) (q256 q191 q86 : option string)
    (q4_4 height weight : float) (zip : option Z) : Raw.row :=
  {| Raw.ResponseId := Some id;
     Raw.Q179 := Some "21-30 Stunden";
     Raw.Q4_4 := q4_4;
     Raw.Q4_2 := B64.nan;
     Raw.Q4_3 := B64.of_Z 2;
     Raw.Q4_5 := B64.nan;
     Raw.Q80_1 := B64.of_Z 41;
     Raw.Q256 := q256;
     Raw.Q190 := Some "Mittleren Schulabschluss (z.B. Realschulabschluss)";
     Raw.Q120 := zip;
     Raw.Q191 := q191;
     Raw.Q82_1 := height;
     Raw.Q83_1 := weight;
     Raw.Q84 := Some "7 von 10";
     Raw.Q219_3 := Some "leicht zugenommen";
     Raw.Q219_4 := None;
     Raw.Q243_1 := B64.of_Z 50;
     Raw.Q243_2 := B64.nan;
     Raw.Q243_3 := B64.nan;
     Raw.Q243_9 := B64.of_Z 60;
     Raw.Q211 := Some "Gut";
     Raw.Q86 := q86;
     Raw.Q87 := None |}.

Definition sample_df : list Raw.row :=
  [ sample_raw_row "R_1" (Some "Weiblich") (Some "Master (Universität)") (Some "1001-1500€")
      B64.nan (B64.of_Z 180) (B64.of_Z 81) (Some 10115);
    sample_raw_row "R_2" (Some "Männlich") None (Some "500€")
      B64.nan (B64.of_Z 0) (B64.of_Z 70) (Some 99999);
    sample_raw_row "R_3" None (Some "Lehre") None
      (B64.of_Z 3) (B64.of_Z 172) (B64.of_Z 64) None;
    sample_raw_row "R_4" (Some "Divers") (Some "DIPLOM") (Some "mehr als 5000€")
      B64.nan (B64.of_Z 165) (B64.of_Z 58) (Some 80331) ].

(** The secondary export: two leading rows that are no responses, then one
    row per response. *)
Definition sample_original : list Original.row :=
  [ {| Original.Q1 := Some "Leben Sie mit anderen Personen zusammen?" |};
    {| Original.Q1 := Some "{ImportId: QID1}" |};
    {| Original.Q1 := Some "Nein" |};
    {| Original.Q1 := Some "Ja" |};
    {| Original.Q1 := Some "Nein" |};
    {| Original.Q1 := None |} ].

Definition sample_region_row (plz : option Z) (bundesland kreis : option string)
    (stadt ew_km2 : float) : Region.row :=
  {| Region.PLZ := plz;
     Region.Bundesland := bundesland;
     Region.Kreis := kreis;
     Region.Stadt_Dummy := stadt;
     Region.EW_km2 := ew_km2;
     Region.Rural_Dummy := B64.of_Z 0;
     Region.EW := B64.of_Z 3645000;
     Region.Metropol_Dummy := B64.of_Z 1 |}.

Definition sample_regions : list Region.row :=
  [ sample_region_row (Some 80331) (Some "Bayern") (Some "München") (B64.of_Z 1) (B64.of_Z 4700);
    sample_region_row (Some 10115) (Some "Berlin") (Some "Berlin") (B64.of_Z 1) (B64.of_Z 4100);
    sample_region_row None (Some "Hessen") None (B64.of_Z 0) B64.nan;
    sample_region_row (Some 10115) (Some "Berlin") (Some "Berlin") (B64.of_Z 1) (B64.of_Z 4100) ].

(** Two rows for one postal code, the first of which lacks the district. *)
Definition regions_with_gap : list Region.row :=
  [ sample_region_row (Some 10115) (Some "Berlin") None (B64.of_Z 1) (B64.of_Z 4100);
    sample_region_row (Some 10115) (Some "Berlin") (Some "Berlin, Stadt") (B64.of_Z 1) (B64.of_Z 4100) ].


Definition household_counts (c : Clean.row) : list float :=
  [ Clean.num_children c; Clean.num_partners c; Clean.num_parents c;
    Clean.num_siblings c ].


(** All seven regional cells of a merged row are missing. *)
Definition regional_missing (m : Merged.row) : Prop :=
  Merged.federal_state m = None /\
  Merged.district m = None /\
  B64.isna (Merged.is_city m) = true /\
  B64.isna (Merged.population_density m) = true /\
  B64.isna (Merged.is_rural m) = true /\
  B64.isna (Merged.population m) = true /\
  B64.isna (Merged.is_metropolitan m) = true.

(** The seven regional cells of a merged row are those of the region row
    [g]. *)
Definition regional_from (g : Region.row) (m : Merged.row) : Prop :=
  Merged.federal_state m = Region.Bundesland g /\
  Merged.district m = Region.Kreis g /\
  Merged.is_city m = Region.Stadt_Dummy g /\
  Merged.population_density m = Region.EW_km2 g /\
  Merged.is_rural m = Region.Rural_Dummy g /\
  Merged.population m = Region.EW g /\
  Merged.is_metropolitan m = Region.Metropol_Dummy g.

(** Following the words of the specification: the first row of the table
    that carries the postal code [k]. *)
Definition first_occurrence (k : Z) (df_regions : list Region.row) : option Region.row :=
  head (group_of k df_regions).

Definition sample_clean : list Clean.row :=
  zip_with clean_row sample_df (q1_data_of sample_original).

Global Instance encoding_eq_dec : EqDecision encoding.
Proof. solve_decision. Defined.


Definition clean_outputs : list string :=
  [ "exogenous_variables_cleaned.csv"; "exogenous_variables_cleaned_dictionary.txt" ].


Definition merge_outputs : list string :=
  [ "exogenous_variables_cleaned_with_regions.csv";
    "exogenous_variables_cleaned_with_regions_dictionary.txt" ].

(** A reader of the region file for which the default encoding fails and
    the first fallback parses. *)
Definition sample_read_csv (e : encoding) : exn + list Region.row :=
  match e with
  | utf_8 => inl UnicodeDecodeError
  | latin_1 => inr sample_regions
  | cp1252 => inr []
  end.

(** A stand-in for pandas at the boundary of the jobs, for the sample
    tables: every file of the right kind parses to the sample table, and a
    table is printed as the number of its rows. *)
Definition sample_frame_ops {A} : frame_ops (list A) :=
  {| df_columns := fun _ => ["ResponseId"; "bmi"];
     df_len := length;
     col_dtype := fun _ c => if String.eqb c "bmi" then "float64" else "object";
     col_isnull_sum := fun _ _ => 0%nat;
     col_notna_sum := fun df _ => length df;
     col_mean_2f := fun _ _ => "23.10";
     col_std_2f := fun _ _ => "2.08";
     col_min := fun _ _ => "21.3";
     col_max := fun _ _ => "25.0";
     col_nunique := fun df _ => length df;
     col_value_counts := fun _ _ => [("R_1", 1%nat)];
     percent_1f := fun _ _ => "0.0" |}.

Definition sample_io : csv_io :=
  {| read_raw := fun _ => Some sample_df;
     read_original := fun _ => Some sample_original;
     read_clean := fun _ => Some sample_clean;
     read_regions := fun _ => sample_read_csv;
     to_csv_clean := fun t => str_nat (length t);
     to_csv_merged := fun t => str_nat (length t);
     clean_ops := sample_frame_ops;
     merged_ops := sample_frame_ops |}.

Definition sample_files : files :=
  list_to_map
    [ ("exogenous_variables_dataset.csv", "raw responses");
      ("Data_Wave2 (1).csv", "secondary export");
      ("exogenous_variables_cleaned.csv", "cleaned table");
      ("Regions.csv", "regions") ].


(** ** Further parts of the two scripts *)

(** A float that is not negative: a zero, a finite number or an infinity
    with a clear sign bit. *)
Definition float_nonneg (x : float) : bool :=
  match x with
  | S754_zero false | S754_finite false _ _ | S754_infinity false => true
  | _ => false
  end.

(** [series.isnull().sum()] on a float column. *)
Definition isnull_sum (col : list float) : nat :=
  length (filter (fun x => B64.isna x = true) col).

(** [series.notna().sum()] on a column of optional cells. *)
Definition notna_sum {A} (col : list (option A)) : nat :=
  length (filter is_Some col).

(** The two counts that the cleaning stage reports after the repair of the
    household counts. *)
Definition before_fix (df : list Raw.row) : nat := isnull_sum (Raw.Q4_4 <$> df).

Definition after_fix (df_clean : list Clean.row) : nat :=
  isnull_sum (Clean.num_children <$> df_clean).


(** An optional code that, where present, lies between two bounds. *)
Definition missing_or_between (lo hi : Z) (cell : option Z) : Prop :=
  match cell with
  | Some v => lo <= v <= hi
  | None => True
  end.

(** The midpoints that the work-hours table holds. *)
Definition work_hours_values : list float :=
  [ B64.of_Z 0; B64.of_scaled 11 (-1); B64.of_scaled 31 (-1); B64.of_scaled 51 (-1);
    B64.of_scaled 71 (-1); B64.of_scaled 91 (-1); B64.of_Z 55 ].

Definition missing_or_among {A} (values : list A) (cell : option A) : Prop :=
  match cell with
  | Some v => v ∈ values
  | None => True
  end.

(** Case analysis on the entry of a dict literal that [H] says a pair is. *)
Ltac entries H :=
  repeat (apply elem_of_cons in H as [H|H]; [simplify_eq|]);
  try (by apply elem_of_nil in H).

(** The rows whose missing number of children the repair fills: those that
    live alone and have no number. *)
Definition repaired_children (df : list Raw.row) (q1_data : list (option string)) : nat :=
  length (filter (fun rq => lives_alone_of rq.2 = true /\ B64.isna (Raw.Q4_4 rq.1) = true)
                 (zip df q1_data)).

(** [df_regions['PLZ'].nunique()]: the number of distinct postal codes,
    missing ones not counted. *)
Definition nunique_PLZ (df_regions : list Region.row) : nat :=
  length (remove_dups (omap Region.PLZ df_regions)).

(** The seven regional cells of a merged row. *)
Definition regional_cells (m : Merged.row)
    : option string * option string * float * float * float * float * float :=
  (Merged.federal_state m, Merged.district m, Merged.is_city m,
   Merged.population_density m, Merged.is_rural m, Merged.population m,
   Merged.is_metropolitan m).

(** A cell is the first one of [cells] that is not missing. *)
Definition first_present {A} (cells : list (option A)) (v : A) : Prop :=
  exists i, cells !! i = Some (Some v) /\ forall j, (j < i)%nat -> cells !! j = Some None.

Definition first_present_float (cells : list float) (x : float) : Prop :=
  B64.isna x = false /\
  exists i, cells !! i = Some x /\ forall j, (j < i)%nat -> cells !! j = Some B64.nan.

(** A cell of the deduplicated table against the cells of its group: it is
    the first one that is not missing, and missing when all are. *)
Definition first_cell_of {A} (cells : list (option A)) (cell : option A) : Prop :=
  (forall v, cell = Some v <-> first_present cells v) /\
  (cell = None <-> Forall (fun c => c = None) cells).

Definition first_float_of (cells : list float) (cell : float) : Prop :=
  (forall x, B64.isna x = false -> cell = x <-> first_present_float cells x) /\
  (B64.isna cell = true <-> Forall (fun c => B64.isna c = true) cells).

(** * Properties *)

(** ** Digit runs *)

Lemma findall_digits_cons c s :
  findall_digits (String c s) =
    if is_digit c then
      if starts_with_digit s then
        match findall_digits s with
        | r :: rs => String c r :: rs
        | [] => [String c EmptyString]
        end
      else String c EmptyString :: findall_digits s
    else findall_digits s.
Proof. reflexivity. Qed.

Lemma no_digit_cons c s :
  no_digit (String c s) = true <-> is_digit c = false /\ no_digit s = true.
Proof. simpl. rewrite andb_true_iff, negb_true_iff. tauto. Qed.

Lemma all_digits_cons c s :
  all_digits (String c s) = true <-> is_digit c = true /\ all_digits s = true.
Proof. simpl. by rewrite andb_true_iff. Qed.

Lemma findall_skip sep s :
  no_digit sep = true -> findall_digits (sep +:+ s) = findall_digits s.
Proof.
  induction sep as [|c sep IH]; [done|].
  intros [Hc Hsep]%no_digit_cons.
  change (String c sep +:+ s) with (String c (sep +:+ s)).
  rewrite findall_digits_cons, Hc. auto.
Qed.

Lemma findall_no_digit sep : no_digit sep = true -> findall_digits sep = [].
Proof.
  induction sep as [|c sep IH]; [done|].
  intros [Hc Hsep]%no_digit_cons. rewrite findall_digits_cons, Hc. auto.
Qed.

Lemma starts_with_digit_app r s :
  starts_with_digit r = true -> starts_with_digit (r +:+ s) = true.
Proof. by destruct r. Qed.

Lemma findall_run r s :
  all_digits r = true -> starts_with_digit r = true ->
  starts_with_digit s = false ->
  findall_digits (r +:+ s) = r :: findall_digits s.
Proof.
  induction r as [|c r IH]; [done|].
  intros [Hc Hr]%all_digits_cons _ Hs.
  change (String c r +:+ s) with (String c (r +:+ s)).
  rewrite findall_digits_cons, Hc.
  destruct r as [|c' r].
  - change (EmptyString +:+ s) with s. by rewrite Hs.
  - assert (starts_with_digit (String c' r) = true) as Hc'.
    { by apply all_digits_cons in Hr as [? _]. }
    rewrite (starts_with_digit_app _ s Hc').
    by rewrite (IH Hr Hc' Hs).
Qed.

(** The scan computes the runs that the declarative description names. *)
Lemma findall_digits_sound s runs : digit_runs s runs -> findall_digits s = runs.
Proof.
  induction 1 as [sep Hsep|sep r rest runs Hsep Hr Hr0 Hrest _ IH].
  - by apply findall_no_digit.
  - rewrite findall_skip by done. rewrite findall_run by done. by rewrite IH.
Qed.

Lemma no_digit_starts sep : no_digit sep = true -> starts_with_digit sep = false.
Proof. destruct sep as [|c sep]; [done|]. by intros [? _]%no_digit_cons. Qed.

Lemma digit_runs_push c s runs r :
  is_digit c = true -> starts_with_digit s = true ->
  digit_runs s (r :: runs) -> digit_runs (String c s) (String c r :: runs).
Proof.
  intros Hc Hs Hruns.
  inversion Hruns as [|sep r' rest runs' Hsep Hr Hr0 Hrest Hrec Hs0]; subst.
  destruct sep as [|c' sep].
  - apply (digit_runs_cons EmptyString (String c r) rest runs); try done.
    by apply all_digits_cons.
  - apply no_digit_cons in Hsep as [Hc' _]. simpl in Hs. congruence.
Qed.

Lemma digit_runs_skip c s runs :
  is_digit c = false -> digit_runs s runs -> digit_runs (String c s) runs.
Proof.
  intros Hc Hruns.
  inversion Hruns as [sep Hsep|sep r rest runs' Hsep Hr Hr0 Hrest Hrec]; subst.
  - constructor. by apply no_digit_cons.
  - apply (digit_runs_cons (String c sep) r rest runs'); try done.
    by apply no_digit_cons.
Qed.

(** Every text has such a description. *)
Lemma digit_runs_total s : digit_runs s (findall_digits s).
Proof.
  induction s as [|c s IH]; [by constructor|].
  rewrite findall_digits_cons.
  destruct (is_digit c) eqn:Hc; [|by apply digit_runs_skip].
  destruct (starts_with_digit s) eqn:Hs.
  - destruct (findall_digits s) as [|r rs] eqn:Hf.
    + inversion IH as [sep Hsep|]; subst.
      apply no_digit_starts in Hsep. congruence.
    + by apply digit_runs_push.
  - apply (digit_runs_cons EmptyString (String c EmptyString) s); try done.
    by apply all_digits_cons.
Qed.

Lemma digit_runs_iff s runs : digit_runs s runs <-> findall_digits s = runs.
Proof.
  split; [apply findall_digits_sound|]. intros <-. apply digit_runs_total.
Qed.

Example findall_ex1 : findall_digits "1001-1500€" = ["1001"; "1500"].
Proof. reflexivity. Qed.

Example findall_ex2 : findall_digits "ab12cd345e6" = ["12"; "345"; "6"].
Proof. reflexivity. Qed.

Example search_ex1 : search_digits "about 7 of 10" = Some "7".
Proof. reflexivity. Qed.

(** ** Binary64: where the arithmetic is exact *)



Lemma iter_pos_eq {A} (f : A -> A) p x : SpecFloat.iter_pos f p x = Pos.iter f x p.
Proof.
  revert x. induction p; intros x; simpl; rewrite ?IHp; try reflexivity.
  rewrite !Pos.iter_swap. reflexivity.
Qed.
















Lemma div_eucl_div_mod a b : Z.div_eucl a b = (a / b, a mod b).
Proof. unfold Z.div, Z.modulo. destruct (Z.div_eucl a b); reflexivity. Qed.












Example digits_to_Z_ex : digits_to_Z "001500" = 1500.
Proof. reflexivity. Qed.

(** ** Income ranges *)

Example midpoint_ex1 : extract_midpoint (Some "1001-1500€") = B64.of_scaled 2501 (-1).
Proof. vm_compute. reflexivity. Qed.

Example midpoint_ex2 : extract_midpoint (Some "500€") = B64.of_Z 500.
Proof. vm_compute. reflexivity. Qed.

Example midpoint_ex3 : extract_midpoint (Some "keine Angabe") = B64.nan.
Proof. reflexivity. Qed.




(** ** The cleaning stage, row by row *)


(** Too short a secondary file aborts the run. *)
Lemma clean_exogenous_dataset_aborts df df_original :
  (length (drop 2 df_original) < length df)%nat ->
  clean_exogenous_dataset df df_original = None.
Proof.
  intros Hlen. unfold clean_exogenous_dataset.
  case_decide as Hd; [|done]. exfalso.
  unfold q1_data_of in Hd. rewrite length_fmap in Hd. lia.
Qed.



Lemma clean_column {B} (f : Clean.row -> B) (g : Raw.row -> B) df df_original out :
  (forall r q1, f (clean_row r q1) = g r) ->
  clean_exogenous_dataset df df_original = Some out ->
  f <$> out = g <$> df.
Proof.
  intros Hfg. unfold clean_exogenous_dataset. case_decide as Hd; [|done].
  intros [= <-]. revert Hd. generalize (q1_data_of df_original).
  induction df as [|r df IH]; intros [|q1 q1s] Hd; simpl in *; try done; [lia|].
  rewrite Hfg. f_equal. apply IH. lia.
Qed.

(** The columns that the stage computes with its encoders and parsers are
    what these give on the raw columns. *)
Lemma clean_encoded_columns df df_original out :
  clean_exogenous_dataset df df_original = Some out ->
  Clean.respondent_work_hours <$> out = encode_respondent_work_hours (Raw.Q179 <$> df) /\
  Clean.gender <$> out = encode_gender (Raw.Q256 <$> df) /\
  Clean.education_level <$> out = encode_education (Raw.Q190 <$> df) /\
  Clean.health_status <$> out = encode_health_status (Raw.Q211 <$> df) /\
  Clean.personal_income_change <$> out = encode_change_variables (Raw.Q219_3 <$> df) /\
  Clean.partner_income_change <$> out = encode_change_variables (Raw.Q219_4 <$> df) /\
  Clean.risk_tolerance <$> out = clean_risk_tolerance (Raw.Q84 <$> df) /\
  Clean.household_income <$> out = parse_income_range (Raw.Q86 <$> df) /\
  Clean.personal_income <$> out = parse_income_range (Raw.Q87 <$> df).
Proof.
  intros Hrun.
  unfold encode_respondent_work_hours, encode_gender, encode_education,
    encode_health_status, encode_change_variables, clean_risk_tolerance,
    parse_income_range, series_map.
  rewrite <- !list_fmap_compose.
  repeat split; by apply (clean_column _ _ df df_original).
Qed.

Example work_hours_ex :
  encode_respondent_work_hours
    [Some "21-30 Stunden"; Some "Nicht erwerbstätig"; Some "Teilzeit"; None] =
  [Some (B64.of_scaled 51 (-1)); Some (B64.of_Z 0); None; None].
Proof. by vm_compute. Qed.

Example risk_tolerance_ex :
  clean_risk_tolerance [Some "7 von 10"; Some "keine Angabe"; None] =
  [B64.of_Z 7; B64.nan; B64.nan].
Proof. by vm_compute. Qed.

(** ** Body-mass index *)


Lemma calculate_bmi_missing_height w : calculate_bmi B64.nan w = B64.nan.
Proof. by destruct w. Qed.

Example bmi_negative_height :
  calculate_bmi (B64.of_Z (-180)) (B64.of_Z 81) = B64.of_Z 25.
Proof. by vm_compute. Qed.



Example sample_bmi :
  Clean.bmi <$> zip_with clean_row sample_df (q1_data_of sample_original) =
  [ B64.of_Z 25; S754_infinity false;
    calculate_bmi (B64.of_Z 172) (B64.of_Z 64);
    calculate_bmi (B64.of_Z 165) (B64.of_Z 58) ].
Proof. by vm_compute. Qed.

(** ** Gender *)





Example sample_gender :
  (fun c => (Clean.gender c, Clean.gender_code c)) <$>
    zip_with clean_row sample_df (q1_data_of sample_original) =
  [ (Some "Female", Some 2); (Some "Male", Some 1); (None, None);
    (Some "Diverse", Some 3) ].
Proof. by vm_compute. Qed.

Example gender_unknown_label :
  (map_cell gender_mapping (Some "männlich"), map_cell gender_code_mapping (Some "männlich"))
  = (None, None).
Proof. by vm_compute. Qed.

(** ** University degree *)




Example lower_ex : lower "UNIVERSITÄT Köln" = "universität köln".
Proof. reflexivity. Qed.

Example degree_ex1 : has_university_degree_of (Some "Abschluss einer FACHHOCHSCHULE") = 1.
Proof. reflexivity. Qed.

Example degree_ex2 : has_university_degree_of (Some "Lehre, Meisterbrief") = 0.
Proof. reflexivity. Qed.

Example degree_ex3 : has_university_degree_of (Some "diplomiert") = 1.
Proof. reflexivity. Qed.



(** ** Conditional imputation *)


Lemma lives_alone_of_true q1 : lives_alone_of q1 = true <-> q1 = Some "Nein".
Proof. unfold lives_alone_of. apply bool_decide_eq_true. Qed.






(** The sample: rows 0 and 2 live alone, row 1 does not, row 3 has no
    answer.  Missing counts become 0 in rows 0 and 2 only; the 3 children
    of row 2 and the 2 parents of every row stay. *)
Example sample_imputation :
  (fun c => (Clean.lives_with_others c, household_counts c)) <$>
    zip_with clean_row sample_df (q1_data_of sample_original) =
  [ (Some "No", [B64.of_Z 0; B64.of_Z 0; B64.of_Z 2; B64.of_Z 0]);
    (Some "Yes", [B64.nan; B64.nan; B64.of_Z 2; B64.nan]);
    (Some "No", [B64.of_Z 3; B64.of_Z 0; B64.of_Z 2; B64.of_Z 0]);
    (None, [B64.nan; B64.nan; B64.of_Z 2; B64.nan]) ].
Proof. by vm_compute. Qed.

(** ** Deduplication of the region table *)

Lemma elem_of_group_keys df_regions k :
  k ∈ group_keys df_regions <-> exists r, r ∈ df_regions /\ Region.PLZ r = Some k.
Proof.
  unfold group_keys.
  by rewrite merge_sort_Permutation, elem_of_remove_dups, list_elem_of_omap.
Qed.

Lemma NoDup_group_keys df_regions : NoDup (group_keys df_regions).
Proof.
  unfold group_keys. rewrite merge_sort_Permutation. apply NoDup_remove_dups.
Qed.

Lemma groupby_PLZ_first_keys df_regions :
  Region.PLZ <$> groupby_PLZ_first df_regions = Some <$> group_keys df_regions.
Proof.
  unfold groupby_PLZ_first. rewrite <- list_fmap_compose. by apply list_fmap_ext.
Qed.

(** After the deduplication every postal code has one row, and no row has
    a missing postal code. *)
Lemma groupby_PLZ_first_unique df_regions :
  NoDup (Region.PLZ <$> groupby_PLZ_first df_regions) /\
  None ∉ (Region.PLZ <$> groupby_PLZ_first df_regions).
Proof.
  rewrite groupby_PLZ_first_keys. split.
  - apply (NoDup_fmap_2 _), NoDup_group_keys.
  - by intros (? & ? & _)%list_elem_of_fmap.
Qed.

Lemma groupby_PLZ_first_elem df_regions g :
  g ∈ groupby_PLZ_first df_regions <->
  exists k, k ∈ group_keys df_regions /\ g = first_of_group k (group_of k df_regions).
Proof.
  unfold groupby_PLZ_first. rewrite list_elem_of_fmap. split.
  - intros (k & -> & Hk). by exists k.
  - intros (k & Hk & ->). by exists k.
Qed.

Lemma first_valid_head {A} (x : A) (cells : list (option A)) :
  first_valid (Some x :: cells) = Some x.
Proof. done. Qed.

Lemma first_valid_float_head x cells :
  B64.isna x = false -> first_valid_float (x :: cells) = x.
Proof. simpl. by intros ->. Qed.

(** Where the first row of a group has no missing cell, it is the row
    kept. *)
Lemma first_of_group_complete k r g :
  Region.PLZ r = Some k ->
  is_Some (Region.Bundesland r) -> is_Some (Region.Kreis r) ->
  B64.isna (Region.Stadt_Dummy r) = false -> B64.isna (Region.EW_km2 r) = false ->
  B64.isna (Region.Rural_Dummy r) = false -> B64.isna (Region.EW r) = false ->
  B64.isna (Region.Metropol_Dummy r) = false ->
  first_of_group k (r :: g) = r.
Proof.
  destruct r as [plz bl kr st ek ru ew me]. simpl.
  intros -> [? ->] [? ->] H1 H2 H3 H4 H5. unfold first_of_group. simpl.
  by rewrite H1, H2, H3, H4, H5.
Qed.

(** C2.  On two rows with one postal code, the first of which lacks the
    district, the deduplication keeps one row for the postal code, but it is
    not the first-occurring row: the missing district is filled from the
    second row. *)
Theorem groupby_first_fills_gaps :
  first_occurrence 10115 regions_with_gap =
    Some (sample_region_row (Some 10115) (Some "Berlin") None (B64.of_Z 1) (B64.of_Z 4100))
  /\ groupby_PLZ_first regions_with_gap =
       [ sample_region_row (Some 10115) (Some "Berlin") (Some "Berlin, Stadt")
           (B64.of_Z 1) (B64.of_Z 4100) ]
  /\ (Region.Kreis <$> first_occurrence 10115 regions_with_gap) = Some None
  /\ (Region.Kreis <$> groupby_PLZ_first regions_with_gap) = [Some "Berlin, Stadt"]
  /\ Some <$> groupby_PLZ_first regions_with_gap <> [first_occurrence 10115 regions_with_gap].
Proof.
  split; [by vm_compute|]. split; [by vm_compute|]. split; [by vm_compute|].
  split; [by vm_compute|]. vm_compute. discriminate.
Qed.

(** ** The left join *)

Lemma filter_key_NoDup {A K} `{EqDecision K} (f : A -> K) (k : K) (l : list A) :
  NoDup (f <$> l) -> (length (filter (fun x => f x = k) l) <= 1)%nat.
Proof.
  induction l as [|x l IH]; [simpl; lia|].
  rewrite fmap_cons, NoDup_cons. intros [Hx Hl].
  rewrite filter_cons. case_decide as Hk; [|auto].
  simpl. destruct (filter (fun x0 => f x0 = k) l) as [|y ys] eqn:Hf; [simpl; lia|].
  exfalso. apply Hx.
  assert (y ∈ filter (fun x0 => f x0 = k) l) as [Hfy Hy]%list_elem_of_filter
    by (rewrite Hf; apply list_elem_of_here).
  rewrite Hk, <- Hfy. by apply list_elem_of_fmap_2.
Qed.

Lemma partners_at_most_one l right :
  NoDup (RegionMerge.region_plz <$> right) -> (length (partners l right) <= 1)%nat.
Proof. apply filter_key_NoDup. Qed.

(** With at most one partner per left row the join has the left rows, each
    once, in their order. *)
Lemma merge_left_rows left right :
  NoDup (RegionMerge.region_plz <$> right) ->
  Joined.left <$> merge_left left right = left.
Proof.
  intros Hright. unfold merge_left.
  induction left as [|l left IH]; [done|].
  rewrite bind_cons, fmap_app, IH. clear IH.
  pose proof (partners_at_most_one l right Hright) as Hlen.
  destruct (partners l right) as [|p [|p' ps]]; simpl in *; [done..|lia].
Qed.

Lemma merge_left_lookup left right i j :
  NoDup (RegionMerge.region_plz <$> right) ->
  merge_left left right !! i = Some j ->
  exists l, left !! i = Some l /\ Joined.left j = l /\
    (partners l right = [] /\ Joined.right j = all_missing \/
     partners l right = [Joined.right j]).
Proof.
  intros Hright. unfold merge_left. revert i.
  induction left as [|l left IH]; intros i; [done|].
  rewrite bind_cons.
  pose proof (partners_at_most_one l right Hright) as Hlen.
  destruct (partners l right) as [|p [|p' ps]] eqn:Hp; simpl in Hlen; [| |lia].
  - destruct i as [|i]; simpl.
    + intros [= <-]. exists l. rewrite Hp. auto.
    + intros Hj. destruct (IH i Hj) as (l' & ? & ? & ?). by exists l'.
  - destruct i as [|i]; simpl.
    + intros [= <-]. exists l. rewrite Hp. auto.
    + intros Hj. destruct (IH i Hj) as (l' & ? & ? & ?). by exists l'.
Qed.

Lemma renamed_keys df_regions :
  RegionMerge.region_plz <$> (rename_row <$> groupby_PLZ_first df_regions) =
  Some <$> group_keys df_regions.
Proof.
  rewrite <- list_fmap_compose, <- groupby_PLZ_first_keys. by apply list_fmap_ext.
Qed.

Lemma renamed_keys_NoDup df_regions :
  NoDup (RegionMerge.region_plz <$> (rename_row <$> groupby_PLZ_first df_regions)).
Proof. rewrite renamed_keys. apply (NoDup_fmap_2 _), NoDup_group_keys. Qed.

Lemma merge_regional_data_runs df_clean df_regions :
  regional_cols_survive df_regions = true ->
  merge_regional_data df_clean df_regions =
    Some (drop_region_plz <$>
            merge_left df_clean (rename_row <$> groupby_PLZ_first df_regions)).
Proof. intros H. unfold merge_regional_data. by rewrite H. Qed.

Lemma merge_regional_data_aborts df_clean df_regions :
  regional_cols_survive df_regions = false ->
  merge_regional_data df_clean df_regions = None.
Proof. intros H. unfold merge_regional_data. by rewrite H. Qed.

Lemma merge_regional_data_base df_clean df_regions out :
  merge_regional_data df_clean df_regions = Some out ->
  Merged.base <$> out = df_clean.
Proof.
  unfold merge_regional_data. destruct (regional_cols_survive _); [|done].
  intros [= <-]. rewrite <- list_fmap_compose.
  rewrite <- (merge_left_rows df_clean _ (renamed_keys_NoDup df_regions)) at 2.
  by apply list_fmap_ext.
Qed.

Lemma merged_columns_eq :
  merged_columns =
    (Clean.columns ++
     [ "federal_state"; "district"; "is_city"; "population_density"; "is_rural";
       "population"; "is_metropolitan" ])%list.
Proof. by vm_compute. Qed.

(** C5.  The merge is a left join on the postal code.  The cleaned rows
    are the [base] of the merged rows, each once and in order.  A row whose
    postal code is missing or carried by no region row has all seven
    regional cells missing; a row whose postal code has a deduplicated
    region row has the cells of that row.  The output columns are the
    cleaned ones followed by the seven regional ones, without
    [region_plz]. *)
Theorem merge_is_left_join (df_clean : list Clean.row) (df_regions : list Region.row)
    (Hcols : regional_cols_survive df_regions = true) :
  exists out,
    merge_regional_data df_clean df_regions = Some out /\
    Merged.base <$> out = df_clean /\
    (forall i l m, df_clean !! i = Some l -> out !! i = Some m ->
       Merged.base m = l /\
       ((forall k, Clean.zip_code l = Some k ->
           forall r, r ∈ df_regions -> Region.PLZ r <> Some k) ->
        regional_missing m) /\
       (forall g, g ∈ groupby_PLZ_first df_regions ->
          Region.PLZ g = Clean.zip_code l -> regional_from g m)) /\
    ("region_plz" ∉ merged_columns) /\
    ("zip_code" ∈ merged_columns) /\
    merged_columns =
      (Clean.columns ++
       [ "federal_state"; "district"; "is_city"; "population_density"; "is_rural";
         "population"; "is_metropolitan" ])%list.
Proof.
  eexists. split; [by apply merge_regional_data_runs|].
  pose proof (merge_regional_data_runs df_clean df_regions Hcols) as Hrun.
  split; [by apply (merge_regional_data_base _ df_regions)|].
  split; [|split; [|split]].
  - intros i l m Hl Hm.
    rewrite list_lookup_fmap in Hm.
    destruct (merge_left _ _ !! i) as [j|] eqn:Hj; [|done]. injection Hm as <-.
    destruct (merge_left_lookup _ _ _ _ (renamed_keys_NoDup df_regions) Hj)
      as (l' & Hl' & Hleft & Hpartners).
    assert (l' = l) as -> by congruence.
    split; [done|]. split.
    + intros Habsent.
      destruct Hpartners as [[_ Hr]|Hp].
      { unfold regional_missing. simpl. by rewrite Hr. }
      exfalso.
      assert (Joined.right j ∈ partners l (rename_row <$> groupby_PLZ_first df_regions))
        as Hin by (rewrite Hp; apply list_elem_of_here).
      apply list_elem_of_filter in Hin as [Hkey Hin].
      apply list_elem_of_fmap in Hin as (g & Hg & Hgin). rewrite Hg in Hkey. simpl in Hkey.
      apply groupby_PLZ_first_elem in Hgin as (k & Hk & ->). simpl in Hkey.
      apply elem_of_group_keys in Hk as (r & Hr & Hplz).
      by apply (Habsent k (eq_sym Hkey) r Hr).
    + intros g Hg Hkey.
      assert (rename_row g ∈ partners l (rename_row <$> groupby_PLZ_first df_regions))
        as Hin.
      { apply list_elem_of_filter. split; [done|]. by apply list_elem_of_fmap_2. }
      destruct Hpartners as [[Hp _]|Hp]; rewrite Hp in Hin.
      { by apply elem_of_nil in Hin. }
      apply list_elem_of_singleton in Hin. unfold regional_from. simpl.
      by rewrite <- Hin.
  - rewrite merged_columns_eq. vm_compute. intros H.
    repeat (apply elem_of_cons in H as [H|H]; [discriminate H|]).
    by apply elem_of_nil in H.
  - rewrite merged_columns_eq. apply list_elem_of_In. vm_compute. tauto.
  - apply merged_columns_eq.
Qed.

Lemma merge_is_left_join_witness :
  regional_cols_survive sample_regions = true /\
  exists out,
    merge_regional_data sample_clean sample_regions = Some out /\
    Merged.base <$> out = sample_clean /\
    (forall i l m, sample_clean !! i = Some l -> out !! i = Some m ->
       Merged.base m = l /\
       ((forall k, Clean.zip_code l = Some k ->
           forall r, r ∈ sample_regions -> Region.PLZ r <> Some k) ->
        regional_missing m) /\
       (forall g, g ∈ groupby_PLZ_first sample_regions ->
          Region.PLZ g = Clean.zip_code l -> regional_from g m)).
Proof.
  assert (regional_cols_survive sample_regions = true) as Hcols by reflexivity.
  split; [exact Hcols|].
  destruct (merge_is_left_join sample_clean sample_regions Hcols)
    as (out & Hrun & Hbase & Hrows & _).
  exists out. split; [exact Hrun|]. split; [exact Hbase|exact Hrows].
Defined.

(** The sample: postal codes 10115 and 80331 have a region row, 99999 has
    none, and one cleaned row has no postal code. *)
Example sample_merge :
  (fun m => (Clean.ResponseId (Merged.base m), Clean.zip_code (Merged.base m),
             Merged.federal_state m, B64.isna (Merged.population m))) <$>
    default [] (merge_regional_data sample_clean sample_regions) =
  [ (Some "R_1", Some 10115, Some "Berlin", false);
    (Some "R_2", Some 99999, None, true);
    (Some "R_3", None, None, true);
    (Some "R_4", Some 80331, Some "Bayern", false) ].
Proof. by vm_compute. Qed.

Example sample_dedup :
  Region.PLZ <$> groupby_PLZ_first sample_regions = [Some 10115; Some 80331].
Proof. by vm_compute. Qed.

(** ** The response identifier *)





Example sample_ids :
  (fun m => Clean.ResponseId (Merged.base m)) <$>
    default [] (merge_regional_data sample_clean sample_regions) =
  [Some "R_1"; Some "R_2"; Some "R_3"; Some "R_4"].
Proof. by vm_compute. Qed.

(** ** The encoding fallback *)

Section LoadingProperties.
Context {T : Type} (read_csv : encoding -> exn + T).

Lemma load_regions_total :
  exists tried e,
    (tried ++ [e])%list `prefix_of` encoding_order /\
    Forall (fun e' => read_csv e' = inl UnicodeDecodeError) tried /\
    (read_csv e <> inl UnicodeDecodeError \/ e = cp1252).
Proof.
  destruct (read_csv utf_8) as [[|w1]|t1] eqn:H1.
  - destruct (read_csv latin_1) as [[|w2]|t2] eqn:H2.
    + exists [utf_8; latin_1], cp1252. split; [by exists []|].
      split; [by repeat constructor|by right].
    + exists [utf_8], latin_1. split; [by exists [cp1252]|].
      split; [by repeat constructor|left; by rewrite H2].
    + exists [utf_8], latin_1. split; [by exists [cp1252]|].
      split; [by repeat constructor|left; by rewrite H2].
  - exists [], utf_8. split; [by exists [latin_1; cp1252]|].
    split; [constructor|left; by rewrite H1].
  - exists [], utf_8. split; [by exists [latin_1; cp1252]|].
    split; [constructor|left; by rewrite H1].
Qed.

Lemma prefix_of_encoding_order tried e :
  (tried ++ [e])%list `prefix_of` encoding_order ->
  tried = [] /\ e = utf_8 \/
  tried = [utf_8] /\ e = latin_1 \/
  tried = [utf_8; latin_1] /\ e = cp1252.
Proof.
  intros [k Hk]. unfold encoding_order in Hk.
  destruct tried as [|a [|b [|c tried]]]; simpl in Hk.
  - injection Hk as <- _. auto.
  - injection Hk as <- <- _. auto.
  - injection Hk as <- <- <- _. auto.
  - injection Hk as _ _ _ Hk. by destruct tried.
Qed.

(** C8.  The region file is read with utf-8 first, then latin-1, then
    cp1252.  If the encodings [tried] all fail to decode and the next one,
    [e], does not (or is the last of the three), then exactly [tried] and
    [e] are attempted, in this order, and the outcome is that of [e]: its
    table, or its exception, which nothing catches.  Such [tried] and [e]
    always exist.  When all three fail to decode, all three are attempted
    and the decoding error is the outcome. *)
Theorem encoding_fallback_chain (tried : list encoding) (e : encoding)
    (Horder : (tried ++ [e])%list `prefix_of` encoding_order)
    (Hfail : Forall (fun e' => read_csv e' = inl UnicodeDecodeError) tried)
    (Hstop : read_csv e <> inl UnicodeDecodeError \/ e = cp1252) :
  load_regions read_csv [] = ((tried ++ [e])%list, read_csv e)
  /\ (forall t, read_csv e = inr t ->
        Forall (fun e' => forall t', read_csv e' <> inr t') tried /\
        load_regions read_csv [] = ((tried ++ [e])%list, inr t))
  /\ ((forall e', read_csv e' = inl UnicodeDecodeError) ->
        load_regions read_csv [] = (encoding_order, inl UnicodeDecodeError))
  /\ (exists tried' e',
        (tried' ++ [e'])%list `prefix_of` encoding_order /\
        Forall (fun e'' => read_csv e'' = inl UnicodeDecodeError) tried' /\
        (read_csv e' <> inl UnicodeDecodeError \/ e' = cp1252)).
Proof.
  assert (load_regions read_csv [] = ((tried ++ [e])%list, read_csv e)) as Hload.
  { unfold load_regions, except_UnicodeDecodeError, try_read.
    destruct (prefix_of_encoding_order _ _ Horder) as [[-> ->]|[[-> ->]|[-> ->]]];
      simpl.
    - destruct Hstop as [Hstop|?]; [|done].
      by destruct (read_csv utf_8) as [[|?]|?].
    - apply Forall_cons in Hfail as [-> _].
      destruct Hstop as [Hstop|?]; [|done].
      by destruct (read_csv latin_1) as [[|?]|?].
    - apply Forall_cons in Hfail as [-> Hfail].
      apply Forall_cons in Hfail as [-> _]. done. }
  split; [done|]. split; [|split].
  - intros t Ht. split; [|by rewrite Hload, Ht].
    eapply Forall_impl; [exact Hfail|]. intros e' He' t'. by rewrite He'.
  - intros Hall. unfold load_regions, except_UnicodeDecodeError, try_read. simpl.
    by rewrite !Hall.
  - apply load_regions_total.
Qed.

End LoadingProperties.

Lemma encoding_fallback_chain_witness :
  ([utf_8] ++ [latin_1])%list `prefix_of` encoding_order /\
  Forall (fun e' => sample_read_csv e' = inl UnicodeDecodeError) [utf_8] /\
  (sample_read_csv latin_1 <> inl UnicodeDecodeError \/ latin_1 = cp1252) /\
  load_regions sample_read_csv [] = ([utf_8; latin_1], inr sample_regions).
Proof.
  assert (([utf_8] ++ [latin_1])%list `prefix_of` encoding_order) as Horder
    by (exists [cp1252]; reflexivity).
  assert (Forall (fun e' => sample_read_csv e' = inl UnicodeDecodeError) [utf_8])
    as Hfail by (repeat constructor).
  assert (sample_read_csv latin_1 <> inl UnicodeDecodeError \/ latin_1 = cp1252)
    as Hstop by (left; discriminate).
  split; [exact Horder|]. split; [exact Hfail|]. split; [exact Hstop|].
  exact (proj1 (encoding_fallback_chain sample_read_csv [utf_8] latin_1
                  Horder Hfail Hstop)).
Defined.

Example load_all_fail :
  load_regions (fun _ => inl UnicodeDecodeError : exn + list Region.row) [] =
  ([utf_8; latin_1; cp1252], inl UnicodeDecodeError).
Proof. reflexivity. Qed.

Example load_other_error :
  load_regions (fun e => match e with
                         | utf_8 => inl (OtherError "FileNotFoundError")
                         | _ => inr sample_regions
                         end) [] =
  ([utf_8], inl (OtherError "FileNotFoundError")).
Proof. reflexivity. Qed.

(** ** Two runs of a job *)

Section JobProperties.
Variable io : csv_io.






(** When the region file decodes under none of the three encodings, the
    merging job aborts and writes nothing. *)
Lemma merge_job_decode_failure cleaned_file regions_file output_file dictionary_file
    (fs : files) regions :
  fs !! regions_file = Some regions ->
  (forall e, read_regions io regions e = inl UnicodeDecodeError) ->
  merge_job io cleaned_file regions_file output_file dictionary_file fs = None.
Proof.
  intros Hre Hall. unfold merge_job.
  destruct (fs !! cleaned_file ≫= read_clean io) as [df_clean|]; [|done].
  simpl. rewrite Hre. simpl.
  unfold load_regions, except_UnicodeDecodeError, try_read. simpl.
  by rewrite !Hall.
Qed.



End JobProperties.


Example sample_clean_run :
  written clean_outputs (clean_main sample_io sample_files) =
  Some [ Some "4";
         Some (generate_data_dictionary sample_frame_ops sample_clean) ].
Proof. by vm_compute. Qed.

Example sample_merge_run_rows :
  head <$> written merge_outputs (merge_main sample_io sample_files) =
  Some (Some (Some "4")).
Proof. by vm_compute. Qed.

(** * Further properties *)

(** ** Binary64: results that are never NaN *)

Lemma shr_1_nonneg mrs : 0 <= shr_m mrs -> 0 <= shr_m (shr_1 mrs).
Proof. destruct mrs as [[|[p|p|]|p] r s]; simpl; lia. Qed.

Lemma iter_shr_1_nonneg k mrs : 0 <= shr_m mrs -> 0 <= shr_m (Pos.iter shr_1 mrs k).
Proof.
  induction k using Pos.peano_ind.
  - apply shr_1_nonneg.
  - rewrite Pos.iter_succ. intros H. by apply shr_1_nonneg, IHk.
Qed.

Lemma shr_fexp_nonneg m e l :
  0 <= m -> 0 <= shr_m (shr_fexp B64.prec B64.emax m e l).1.
Proof.
  intros Hm. unfold shr_fexp, shr.
  assert (shr_m (shr_record_of_loc m l) = m) as Hrec by (by destruct l as [|[]]).
  destruct (fexp _ _ _ - e) as [|k|k]; simpl; rewrite ?iter_pos_eq.
  - by rewrite Hrec.
  - apply iter_shr_1_nonneg. by rewrite Hrec.
  - by rewrite Hrec.
Qed.

Lemma round_nearest_even_nonneg m l : 0 <= m -> 0 <= round_nearest_even m l.
Proof. intros Hm. destruct l as [|[]]; simpl; try done; [destruct (Z.even m)|]; lia. Qed.

(** Rounding a mantissa that is not negative gives a signed zero, a finite
    number or an infinity of the sign asked for. *)
Lemma binary_round_aux_sign sx m e l :
  0 <= m ->
  match binary_round_aux B64.prec B64.emax sx m e l with
  | S754_zero s | S754_infinity s | S754_finite s _ _ => s = sx
  | S754_nan => False
  end.
Proof.
  intros Hm. unfold binary_round_aux.
  pose proof (shr_fexp_nonneg m e l Hm) as H1.
  destruct (shr_fexp B64.prec B64.emax m e l) as [mrs' e']. simpl in H1.
  pose proof (shr_fexp_nonneg _ e' loc_Exact
                (round_nearest_even_nonneg _ (loc_of_shr_record mrs') H1)) as H2.
  destruct (shr_fexp B64.prec B64.emax _ e' loc_Exact) as [mrs'' e'']. simpl in H2.
  destruct (shr_m mrs'') as [|p|p]; [done| |lia].
  by destruct (e'' <=? B64.emax - B64.prec).
Qed.



Lemma div_nonneg x my ey :
  float_nonneg x = true ->
  float_nonneg (B64.div x (S754_finite false my ey)) = true.
Proof.
  destruct x as [[]|[]| |[] mx ex]; try done.
  intros _. unfold B64.div, SFdiv, SFdiv_core_binary.
  set (m' := match _ - _ - _ with Z0 => Zpos mx | Zpos _ => _ | Zneg _ => 0 end).
  assert (0 <= m') as Hm'.
  { unfold m'. destruct (_ - _ - _); [lia| |lia]. apply Z.shiftl_nonneg. lia. }
  rewrite div_eucl_div_mod.
  pose proof (binary_round_aux_sign (xorb false false) (m' / Zpos my)
                (Z.min (fexp B64.prec B64.emax
                          (Zdigits2 (Zpos mx) + ex - (Zdigits2 (Zpos my) + ey)))
                       (ex - ey))
                (new_location (Zpos my) (m' mod Zpos my))
                ltac:(apply Z.div_pos; lia)) as H.
  simpl xorb in H.
  by destruct (binary_round_aux _ _ _ _ _ _) as [[]|[]| |[] ? ?].
Qed.





(** ** Risk tolerance and income: what the parsers return *)




Example extract_number_ex :
  clean_risk_tolerance [Some "-3"; Some "7.5"; Some "15"; Some "hoch"; None] =
  [B64.of_Z 3; B64.of_Z 7; B64.of_Z 15; B64.nan; B64.nan].
Proof. by vm_compute. Qed.

(** ** Body-mass index: signs and missing values *)

Lemma binary_round_aux_opp sx m e l :
  binary_round_aux B64.prec B64.emax (negb sx) m e l
  = SFopp (binary_round_aux B64.prec B64.emax sx m e l).
Proof.
  unfold binary_round_aux.
  destruct (shr_fexp B64.prec B64.emax m e l) as [mrs' e'].
  destruct (shr_fexp B64.prec B64.emax _ e' loc_Exact) as [mrs'' e''].
  destruct (shr_m mrs''); [done| |done].
  by destruct (e'' <=? B64.emax - B64.prec).
Qed.

Lemma div_opp_l x my ey :
  B64.div (SFopp x) (S754_finite false my ey)
  = SFopp (B64.div x (S754_finite false my ey)).
Proof.
  destruct x as [[]|[]| |s mx ex]; try done.
  unfold B64.div, SFdiv. cbn [SFopp].
  destruct (SFdiv_core_binary _ _ _ _ _ _) as [[mz ez] lz].
  rewrite !xorb_false_r. apply binary_round_aux_opp.
Qed.

Lemma mul_opp_opp x : B64.mul (SFopp x) (SFopp x) = B64.mul x x.
Proof. by destruct x as [[]|[]| |[] mx ex]. Qed.

Lemma mul_self_nonneg x :
  B64.isna (B64.mul x x) || float_nonneg (B64.mul x x) = true.
Proof.
  destruct x as [[]|[]| |s mx ex]; try done.
  unfold B64.mul, SFmul. rewrite xorb_nilpotent.
  pose proof (binary_round_aux_sign false (Zpos (mx * mx)) (ex + ex) loc_Exact
                ltac:(lia)) as H.
  by destruct (binary_round_aux _ _ _ _ _ _) as [[]|[]| |[] ? ?].
Qed.

Lemma div_nonneg_any x y :
  float_nonneg x = true -> float_nonneg y = true ->
  B64.isna (B64.div x y) || float_nonneg (B64.div x y) = true.
Proof.
  intros Hx Hy. destruct y as [[]|[]| |[] my ey]; try done.
  - by destruct x as [[]|[]| |[] mx ex].
  - by destruct x as [[]|[]| |[] mx ex].
  - by rewrite div_nonneg, orb_true_r.
Qed.

(** X3.  [calculate_bmi] does not look at the sign of the height: a
    height and its negative give the same index, for every weight. *)
Theorem calculate_bmi_height_sign (height_cm weight_kg : float) :
  calculate_bmi (SFopp height_cm) weight_kg = calculate_bmi height_cm weight_kg.
Proof.
  unfold calculate_bmi.
  change (B64.of_Z 100) with (S754_finite false 7036874417766400 (-46)).
  by rewrite div_opp_l, mul_opp_opp.
Qed.

(** X4.  A missing height or a missing weight gives a missing index.  For
    a weight that is not negative the index is never negative: it is a
    number that is not negative, or missing. *)
Theorem calculate_bmi_missing_and_sign (height_cm weight_kg : float)
    (Hweight : float_nonneg weight_kg = true) :
  calculate_bmi B64.nan weight_kg = B64.nan
  /\ calculate_bmi height_cm B64.nan = B64.nan
  /\ B64.isna (calculate_bmi height_cm weight_kg)
     || float_nonneg (calculate_bmi height_cm weight_kg) = true.
Proof.
  split; [by destruct weight_kg|]. split; [done|].
  unfold calculate_bmi.
  pose proof (mul_self_nonneg (B64.div height_cm (B64.of_Z 100))) as Hsq.
  destruct (B64.mul _ _) as [sz|si| |sf mf ef] eqn:Hmul.
  - simpl in Hsq. by apply div_nonneg_any.
  - simpl in Hsq. by apply div_nonneg_any.
  - by destruct weight_kg.
  - simpl in Hsq. by apply div_nonneg_any.
Qed.

Lemma calculate_bmi_missing_and_sign_witness :
  float_nonneg (B64.of_Z 81) = true /\
  B64.isna (calculate_bmi (B64.of_Z 180) (B64.of_Z 81))
  || float_nonneg (calculate_bmi (B64.of_Z 180) (B64.of_Z 81)) = true.
Proof.
  assert (float_nonneg (B64.of_Z 81) = true) as Hw by reflexivity.
  split; [exact Hw|].
  exact (proj2 (proj2 (calculate_bmi_missing_and_sign (B64.of_Z 180) (B64.of_Z 81) Hw))).
Defined.

(** ** The encoders: ranges of the codes *)

(** The entries of a dict literal that a key can be looked up to. *)
Lemma map_cell_Some {V} (entries : list (string * V)) (val : option string) (v : V) :
  map_cell (list_to_map entries) val = Some v ->
  exists label, val = Some label /\ (label, v) ∈ entries.
Proof.
  destruct val as [label|]; [|done]. simpl.
  intros H%elem_of_list_to_map_2. eauto.
Qed.

Lemma education_range val : missing_or_between 1 4 (map_cell education_mapping val).
Proof.
  destruct (map_cell education_mapping val) as [v|] eqn:Hv; [|done].
  apply map_cell_Some in Hv as (label & _ & H). simpl. entries H; lia.
Qed.

Lemma health_range val : missing_or_between 1 5 (map_cell health_mapping val).
Proof.
  destruct (map_cell health_mapping val) as [v|] eqn:Hv; [|done].
  apply map_cell_Some in Hv as (label & _ & H). simpl. entries H; lia.
Qed.

Lemma change_range val : missing_or_between (-2) 2 (map_cell change_mapping val).
Proof.
  destruct (map_cell change_mapping val) as [v|] eqn:Hv; [|done].
  apply map_cell_Some in Hv as (label & _ & H). simpl. entries H; lia.
Qed.

Lemma work_hours_range val :
  missing_or_among work_hours_values (map_cell work_hours_mapping val).
Proof.
  destruct (map_cell work_hours_mapping val) as [v|] eqn:Hv; [|done].
  apply map_cell_Some in Hv as (label & _ & H). simpl.
  entries H; apply list_elem_of_In; vm_compute; tauto.
Qed.

(** X5.  Whatever the raw labels are, the codes of a cleaned row stay in
    their scales: the education level is missing or between 1 and 4 (the
    table has no 5), the health status missing or between 1 and 5, the two
    income changes missing or between -2 and 2, and the work hours missing
    or one of the seven midpoints 0, 5.5, 15.5, 25.5, 35.5, 45.5, 55.  The
    same holds for the encoders on any column. *)
Theorem encoded_codes_in_range (r : Raw.row) (q1 : option string)
    (series : list (option string)) :
  missing_or_between 1 4 (Clean.education_level (clean_row r q1))
  /\ missing_or_between 1 5 (Clean.health_status (clean_row r q1))
  /\ missing_or_between (-2) 2 (Clean.personal_income_change (clean_row r q1))
  /\ missing_or_between (-2) 2 (Clean.partner_income_change (clean_row r q1))
  /\ missing_or_among work_hours_values (Clean.respondent_work_hours (clean_row r q1))
  /\ Forall (missing_or_between 1 4) (encode_education series)
  /\ Forall (missing_or_between 1 5) (encode_health_status series)
  /\ Forall (missing_or_between (-2) 2) (encode_change_variables series)
  /\ Forall (missing_or_among work_hours_values) (encode_respondent_work_hours series).
Proof.
  split; [apply education_range|]. split; [apply health_range|].
  split; [apply change_range|]. split; [apply change_range|].
  split; [apply work_hours_range|].
  unfold encode_education, encode_health_status, encode_change_variables,
    encode_respondent_work_hours, series_map.
  rewrite !Forall_fmap.
  repeat split; apply Forall_forall; intros val _; simpl.
  - apply education_range.
  - apply health_range.
  - apply change_range.
  - apply work_hours_range.
Qed.

(** ** The encoders: which codes can be decoded *)

(** X6.  The health, income-change and gender codes determine the label
    they were made from: two labels with the same code are the same label.
    The education level does not: two different certificates share the
    level 3. *)
Theorem ordinal_codes_decodable (mapping : gmap string Z) (l1 l2 : string) (v : Z)
    (Hmapping : mapping ∈ [health_mapping; change_mapping; gender_code_mapping])
    (H1 : mapping !! l1 = Some v) (H2 : mapping !! l2 = Some v) :
  l1 = l2
  /\ exists a b, a <> b /\ education_mapping !! a = Some 3
                 /\ education_mapping !! b = Some 3.
Proof.
  split.
  - apply elem_of_cons in Hmapping as [->|Hmapping];
      [|apply elem_of_cons in Hmapping as [->|Hmapping];
        [|apply list_elem_of_singleton in Hmapping as ->]];
      apply elem_of_list_to_map_2 in H1; apply elem_of_list_to_map_2 in H2;
      entries H1; entries H2; done.
  - exists "Abschluss der Polytechnischen Oberschule der DDR",
      "Mittleren Schulabschluss (z.B. Realschulabschluss)".
    split; [done|]. split; by vm_compute.
Qed.

Lemma ordinal_codes_decodable_witness :
  health_mapping ∈ [health_mapping; change_mapping; gender_code_mapping] /\
  health_mapping !! "Gut" = Some 4 /\
  "Gut" = "Gut".
Proof.
  assert (health_mapping ∈ [health_mapping; change_mapping; gender_code_mapping])
    as Hm by apply list_elem_of_here.
  assert (health_mapping !! "Gut" = Some 4) as H by (by vm_compute).
  split; [exact Hm|]. split; [exact H|].
  exact (proj1 (ordinal_codes_decodable health_mapping "Gut" "Gut" 4 Hm H H)).
Defined.

(** ** The repair of the household counts, seen in the cleaned table *)









Example sample_missing_children :
  (before_fix sample_df, after_fix sample_clean,
   repaired_children sample_df (q1_data_of sample_original)) = (3, 2, 1)%nat.
Proof. by vm_compute. Qed.

(** ** The deduplicated region table *)

Lemma remove_dups_NoDup {A} `{EqDecision A} (l : list A) : NoDup l -> remove_dups l = l.
Proof.
  induction 1 as [|x l Hx _ IH]; [done|]. simpl.
  destruct (decide_rel elem_of x l); [done|]. by rewrite IH.
Qed.

Lemma merge_sort_sorted (l : list Z) : Sorted Z.le l -> merge_sort Z.le l = l.
Proof.
  intros Hl. apply (Sorted_unique Z.le); [apply (Sorted_merge_sort _)|done|].
  apply merge_sort_Permutation.
Qed.

Lemma StronglySorted_le_lt (l : list Z) :
  StronglySorted Z.le l -> NoDup l -> StronglySorted Z.lt l.
Proof.
  induction 1 as [|x l Hl IH Hx]; [constructor|].
  intros [Hnx Hnd]%NoDup_cons. constructor; [by apply IH|].
  rewrite Forall_forall in Hx |- *. intros y Hy.
  specialize (Hx y Hy). assert (x <> y) by (by intros ->). lia.
Qed.

Lemma group_keys_sorted df_regions : StronglySorted Z.lt (group_keys df_regions).
Proof.
  apply StronglySorted_le_lt; [|apply NoDup_group_keys].
  unfold group_keys. apply (StronglySorted_merge_sort _).
Qed.

(** X9.  The deduplicated region table is ordered by strictly ascending
    postal code and has no row without one; a postal code has a row exactly
    when some input row carries it; and the number of rows is the number of
    distinct postal codes that the stage reports before the grouping. *)
Theorem groupby_PLZ_first_sorted (df_regions : list Region.row) :
  exists keys,
    Region.PLZ <$> groupby_PLZ_first df_regions = Some <$> keys /\
    StronglySorted Z.lt keys /\
    (forall k, k ∈ keys <-> exists r, r ∈ df_regions /\ Region.PLZ r = Some k) /\
    length (groupby_PLZ_first df_regions) = nunique_PLZ df_regions.
Proof.
  exists (group_keys df_regions).
  split; [apply groupby_PLZ_first_keys|]. split; [apply group_keys_sorted|].
  split; [apply elem_of_group_keys|].
  unfold groupby_PLZ_first, nunique_PLZ, group_keys.
  by rewrite length_fmap, merge_sort_Permutation.
Qed.

Lemma groupby_PLZ_first_sorted_witness :
  exists keys,
    Region.PLZ <$> groupby_PLZ_first sample_regions = Some <$> keys /\
    StronglySorted Z.lt keys /\
    (forall k, k ∈ keys <-> exists r, r ∈ sample_regions /\ Region.PLZ r = Some k) /\
    length (groupby_PLZ_first sample_regions) = nunique_PLZ sample_regions.
Proof. exact (groupby_PLZ_first_sorted sample_regions). Defined.

Lemma first_valid_singleton {A} (x : option A) : first_valid [x] = x.
Proof. by destruct x. Qed.

Lemma first_valid_float_singleton x : first_valid_float [x] = x.
Proof. by destruct x. Qed.

Lemma first_of_group_singleton k r :
  Region.PLZ r = Some k -> first_of_group k [r] = r.
Proof.
  destruct r as [plz bl kr st ek ru ew me]. cbn [Region.PLZ]. intros ->.
  unfold first_of_group.
  change (Region.Bundesland <$> [?x]) with [Region.Bundesland x].
  change (Region.Kreis <$> [?x]) with [Region.Kreis x].
  change (Region.Stadt_Dummy <$> [?x]) with [Region.Stadt_Dummy x].
  change (Region.EW_km2 <$> [?x]) with [Region.EW_km2 x].
  change (Region.Rural_Dummy <$> [?x]) with [Region.Rural_Dummy x].
  change (Region.EW <$> [?x]) with [Region.EW x].
  change (Region.Metropol_Dummy <$> [?x]) with [Region.Metropol_Dummy x].
  by rewrite !first_valid_singleton, !first_valid_float_singleton.
Qed.

Lemma group_of_keyed (g : Z -> Region.row) (keys : list Z) k :
  (forall k', Region.PLZ (g k') = Some k') -> NoDup keys -> k ∈ keys ->
  group_of k (g <$> keys) = [g k].
Proof.
  intros Hg. unfold group_of.
  induction keys as [|k' keys IH]; [by intros _ ?%elem_of_nil|].
  intros [Hk' Hnd]%NoDup_cons Hk. rewrite fmap_cons, filter_cons, Hg.
  apply elem_of_cons in Hk as [->|Hk].
  - rewrite decide_True by done. f_equal.
    clear IH. induction keys as [|k'' keys IH]; [done|].
    apply not_elem_of_cons in Hk' as [Hne Hk']. apply NoDup_cons in Hnd as [_ Hnd].
    rewrite fmap_cons, filter_cons, Hg, decide_False by congruence. by apply IH.
  - rewrite decide_False; [by apply IH|]. intros [= ->]. done.
Qed.

Lemma omap_keyed (g : Z -> Region.row) (keys : list Z) :
  (forall k, Region.PLZ (g k) = Some k) -> omap Region.PLZ (g <$> keys) = keys.
Proof.
  intros Hg. induction keys as [|k keys IH]; [done|].
  rewrite fmap_cons. cbn [omap list_omap]. by rewrite Hg, IH.
Qed.

(** X10.  Deduplicating twice is deduplicating once. *)
Theorem groupby_PLZ_first_idempotent (df_regions : list Region.row) :
  groupby_PLZ_first (groupby_PLZ_first df_regions) = groupby_PLZ_first df_regions.
Proof.
  set (g := fun k => first_of_group k (group_of k df_regions)).
  assert (forall k, Region.PLZ (g k) = Some k) as Hg by done.
  assert (groupby_PLZ_first df_regions = g <$> group_keys df_regions) as Hout by done.
  assert (group_keys (g <$> group_keys df_regions) = group_keys df_regions) as Hkeys.
  { unfold group_keys at 1. rewrite (omap_keyed g _ Hg).
    rewrite remove_dups_NoDup by apply NoDup_group_keys.
    apply merge_sort_sorted. unfold group_keys. apply (Sorted_merge_sort _). }
  rewrite Hout. unfold groupby_PLZ_first at 1. rewrite Hkeys.
  apply list_fmap_ext. intros i k Hk.
  rewrite (group_of_keyed g); [|done|apply NoDup_group_keys|by eapply list_elem_of_lookup_2].
  by apply first_of_group_singleton.
Qed.

(** ** What the deduplication keeps of a group *)

Lemma first_valid_spec {A} (cells : list (option A)) :
  first_cell_of cells (first_valid cells).
Proof.
  induction cells as [|[x|] cells [IH1 IH2]]; split.
  - intros v. split; [done|]. by intros (i & Hi & _).
  - by split.
  - intros v. simpl. split.
    + intros [= ->]. exists 0%nat. split; [done|]. intros j Hj. lia.
    + intros ([|i] & Hi & Hlt).
      * by injection Hi as ->.
      * specialize (Hlt 0%nat ltac:(lia)). done.
  - simpl. split; [done|]. by intros [? _]%Forall_cons.
  - intros v. simpl. rewrite IH1. split.
    + intros (i & Hi & Hlt). exists (S i). split; [done|].
      intros [|j] Hj; [done|]. apply Hlt. lia.
    + intros ([|i] & Hi & Hlt); [done|]. exists i. split; [done|].
      intros j Hj. apply (Hlt (S j)). lia.
  - simpl. rewrite IH2. split; [by constructor|]. by intros [_ ?]%Forall_cons.
Qed.

Lemma first_valid_float_spec (cells : list float) :
  first_float_of cells (first_valid_float cells).
Proof.
  induction cells as [|c cells [IH1 IH2]]; split.
  - intros x Hx. split.
    + simpl. intros <-. done.
    + by intros (_ & i & Hi & _).
  - by split.
  - intros x Hx. simpl. destruct (B64.isna c) eqn:Hc.
    + rewrite (IH1 x Hx). assert (c = B64.nan) as -> by (by destruct c). split.
      * intros (_ & i & Hi & Hlt). split; [done|]. exists (S i). split; [done|].
        intros [|j] Hj; [done|]. apply Hlt. lia.
      * intros (_ & [|i] & Hi & Hlt).
        { injection Hi as <-. done. }
        split; [done|]. exists i. split; [done|].
        intros j Hj. apply (Hlt (S j)). lia.
    + split.
      * intros ->. split; [done|]. exists 0%nat. split; [done|]. intros j Hj. lia.
      * intros (_ & [|i] & Hi & Hlt).
        { by injection Hi as ->. }
        specialize (Hlt 0%nat ltac:(lia)). injection Hlt as ->. done.
  - simpl. destruct (B64.isna c) eqn:Hc.
    + rewrite IH2. split; [by constructor|]. by intros [_ ?]%Forall_cons.
    + rewrite Hc. split; [done|]. intros [? _]%Forall_cons. congruence.
Qed.

(** X11.  For a postal code that some input row carries, the deduplicated
    table has one row, and each of its cells is the first cell of that
    column that is not missing among the input rows of the postal code, in
    input order; the cell is missing only when all of them are. *)
Theorem groupby_first_cells (df_regions : list Region.row) (r : Region.row) (k : Z)
    (Hr : r ∈ df_regions) (Hk : Region.PLZ r = Some k) :
  exists g,
    filter (fun g' => Region.PLZ g' = Some k) (groupby_PLZ_first df_regions) = [g] /\
    first_cell_of (Region.Bundesland <$> group_of k df_regions) (Region.Bundesland g) /\
    first_cell_of (Region.Kreis <$> group_of k df_regions) (Region.Kreis g) /\
    first_float_of (Region.Stadt_Dummy <$> group_of k df_regions) (Region.Stadt_Dummy g) /\
    first_float_of (Region.EW_km2 <$> group_of k df_regions) (Region.EW_km2 g) /\
    first_float_of (Region.Rural_Dummy <$> group_of k df_regions) (Region.Rural_Dummy g) /\
    first_float_of (Region.EW <$> group_of k df_regions) (Region.EW g) /\
    first_float_of (Region.Metropol_Dummy <$> group_of k df_regions)
                   (Region.Metropol_Dummy g) /\
    r ∈ group_of k df_regions.
Proof.
  exists (first_of_group k (group_of k df_regions)).
  split.
  - apply (group_of_keyed (fun k' => first_of_group k' (group_of k' df_regions)));
      [done|apply NoDup_group_keys|].
    apply elem_of_group_keys. eauto.
  - cbn [first_of_group Region.Bundesland Region.Kreis Region.Stadt_Dummy Region.EW_km2
         Region.Rural_Dummy Region.EW Region.Metropol_Dummy].
    do 2 (split; [apply first_valid_spec|]).
    do 5 (split; [apply first_valid_float_spec|]).
    by apply list_elem_of_filter.
Qed.

Lemma groupby_first_cells_witness :
  sample_region_row (Some 10115) (Some "Berlin") None (B64.of_Z 1) (B64.of_Z 4100)
    ∈ regions_with_gap /\
  exists g,
    filter (fun g' => Region.PLZ g' = Some 10115) (groupby_PLZ_first regions_with_gap)
      = [g] /\
    first_cell_of (Region.Kreis <$> group_of 10115 regions_with_gap) (Region.Kreis g).
Proof.
  assert (sample_region_row (Some 10115) (Some "Berlin") None (B64.of_Z 1) (B64.of_Z 4100)
            ∈ regions_with_gap) as Hr by apply list_elem_of_here.
  split; [exact Hr|].
  destruct (groupby_first_cells regions_with_gap _ 10115 Hr eq_refl)
    as (g & Hg & _ & Hkreis & _).
  exists g. split; [exact Hg|exact Hkreis].
Defined.
